(** * Stream bot (legacy.py): liveness probe, popup handling and stream monitors

    The program drives a browser-automation library and an HTTP client.
    Every call it makes on those collaborators is an event of an
    interaction tree; the methods of [legacy.py] are interaction trees built
    with bind and [ITree.iter], in the order the source makes the calls.
    A [world] answers each call (or makes it raise) from the calls made so
    far, and [exec] runs a tree against a world with a step budget. *)

From Stdlib Require Import String Ascii List ZArith Bool Arith Lia Morphisms.
From ITree Require Import ITree ITreeFacts.
Import ITreeNotations ListNotations.
Local Open Scope string_scope.
Local Open Scope list_scope.
Local Open Scope itree_scope.

(** ** Data *)

(** [@dataclass class StreamerInfo]. *)
Record StreamerInfo := mkStreamerInfo {
  username : string;
  platform_url : string
}.

(** The part of a [requests] response the program reads. *)
Record Response := mkResponse { text : string }.

(** A browser session handle: the object bound to [driver] or [new_driver]. *)
Definition Driver := nat.

(** ** Calls on the collaborators *)

Inductive call : Type :=
| UcOpenWithReconnect (d : Driver) (url : string) (reconnect_time : Z)
| Sleep (d : Driver) (seconds : Z)
| UcGuiClickCaptcha (d : Driver)
| UcGuiHandleCaptcha (d : Driver)
| IsElementPresent (d : Driver) (selector : string)
| IsElementVisible (d : Driver) (selector : string)
| UcClick (d : Driver) (selector : string) (reconnect_time : Z)
| GetNewDriver (d : Driver) (undetectable : bool)
| QuitExtraDriver (d : Driver)
| RequestsGet (url : string) (headers : list (string * string)).

(** What a call hands back when it returns. *)
Definition result_of (c : call) : Type :=
  match c with
  | IsElementPresent _ _ | IsElementVisible _ _ => bool
  | GetNewDriver _ _ => Driver
  | RequestsGet _ _ => Response
  | _ => unit
  end.

Variant botE : Type -> Type :=
| Call (c : call) : botE (result_of c).

Definition perform (c : call) : itree botE (result_of c) :=
  ITree.trigger (Call c).

(** ** Worlds and execution *)

(** The calls made so far, oldest first. *)
Definition trace := list call.

(** A deterministic environment: the answer to a call, given the calls
    made before it; [None] is the call raising. *)
Definition world := trace -> forall c : call, option (result_of c).

Inductive outcome (R : Type) : Type :=
| Returned (r : R) (h : trace) (spare : nat)
| Raised (h : trace)
| OutOfFuel (h : trace).
Arguments Returned {R} r h spare.
Arguments Raised {R} h.
Arguments OutOfFuel {R} h.

(** Runs [t] from history [h]; observing a node costs one unit of fuel.
    A call is logged when it is made, also when it raises. *)
Fixpoint exec {R : Type} (w : world) (fuel : nat) (t : itree botE R)
  (h : trace) : outcome R :=
  match fuel with
  | O => OutOfFuel h
  | S fuel' =>
      match observe t with
      | RetF r => Returned r h fuel'
      | TauF t' => exec w fuel' t' h
      | VisF e k =>
          match e in botE X return (X -> itree botE R) -> outcome R with
          | Call c => fun k' =>
              match w h c with
              | Some x => exec w fuel' (k' x) (h ++ [c])
              | None => Raised (h ++ [c])
              end
          end k
      end
  end.

Definition trace_of {R : Type} (o : outcome R) : trace :=
  match o with
  | Returned _ h _ => h
  | Raised h => h
  | OutOfFuel h => h
  end.

(** [while cond: body]. *)
Definition while (cond : itree botE bool) (body : itree botE unit)
  : itree botE unit :=
  ITree.iter (fun _ : unit =>
    b <- cond ;;
    if b : bool then body ;; Ret (inl tt) else Ret (inr tt)) tt.

(** ** Strings *)

(** The double-quote character inside the selectors. *)
Definition dq : string := String (ascii_of_nat 34) EmptyString.

(** ['button:contains("Accept")']. *)
Definition accept_button : string :=
  ("button:contains(" ++ dq ++ "Accept" ++ dq ++ ")")%string.

(** ['#injected-channel-player']. *)
Definition player_selector : string := "#injected-channel-player".

(** Python's [needle in hay] on strings: [needle] occurs somewhere in [hay]. *)
Fixpoint str_in (needle hay : string) : bool :=
  if String.prefix needle hay then true
  else match hay with
       | EmptyString => false
       | String _ hay' => str_in needle hay'
       end.

(** ** class StreamStatusChecker *)

Module StreamStatusChecker.

Definition TWITCH_CLIENT_ID : string := "kimne78kx3ncx6brgo4mv6wki5h1ko".

Definition is_twitch_online (username : string) : itree botE bool :=
  let url := ("https://www.twitch.tv/" ++ username)%string in
  let headers := [("Client-ID", TWITCH_CLIENT_ID)] in
  resp <- perform (RequestsGet url headers) ;;
  Ret (str_in "isLiveBroadcast" (text resp)).

End StreamStatusChecker.

(** ** class CaptchaHandler *)

Module CaptchaHandler.

Record t := init { driver : Driver }.

Definition handle_captcha (self : t) : itree botE unit :=
  perform (UcGuiClickCaptcha (driver self)) ;;
  perform (Sleep (driver self) 1) ;;
  perform (UcGuiHandleCaptcha (driver self)) ;;
  perform (Sleep (driver self) 4).

End CaptchaHandler.

(** ** class StreamBot *)

Module StreamBot.

Record t := init { streamer : StreamerInfo }.

(** [reconnect_time] defaults to 4 in the source; every caller passes it. *)
Definition open_stream_and_handle_popups (self : t) (driver : Driver)
  (reconnect_time : Z) : itree botE unit :=
  perform (UcOpenWithReconnect driver (platform_url (streamer self))
             reconnect_time) ;;
  perform (Sleep driver 4) ;;
  let captcha := CaptchaHandler.init driver in
  CaptchaHandler.handle_captcha captcha ;;
  present <- perform (IsElementPresent driver accept_button) ;;
  if present : bool
  then perform (UcClick driver accept_button 4)
  else Ret tt.

Definition monitor_kick_stream (self : t) (driver : Driver)
  : itree botE unit :=
  visible <- perform (IsElementVisible driver player_selector) ;;
  if visible : bool then
    new_driver <- perform (GetNewDriver driver true) ;;
    open_stream_and_handle_popups self new_driver 5 ;;
    perform (Sleep driver 10) ;;
    (present <- perform (IsElementPresent new_driver accept_button) ;;
     if present : bool
     then perform (UcClick new_driver accept_button 4)
     else Ret tt) ;;
    while (perform (IsElementVisible driver player_selector))
          (perform (Sleep driver 10)) ;;
    perform (QuitExtraDriver driver)
  else Ret tt.

Definition monitor_twitch_stream (self : t) (driver : Driver)
  : itree botE unit :=
  online <- StreamStatusChecker.is_twitch_online (username (streamer self)) ;;
  if online : bool then
    let twitch_url :=
      ("https://www.twitch.tv/" ++ username (streamer self))%string in
    perform (UcOpenWithReconnect driver twitch_url 5) ;;
    (present <- perform (IsElementPresent driver accept_button) ;;
     if present : bool
     then perform (UcClick driver accept_button 4)
     else Ret tt) ;;
    new_driver <- perform (GetNewDriver driver true) ;;
    perform (UcOpenWithReconnect new_driver twitch_url 5) ;;
    perform (Sleep driver 10) ;;
    (present <- perform (IsElementPresent new_driver accept_button) ;;
     if present : bool
     then perform (UcClick new_driver accept_button 4)
     else Ret tt) ;;
    perform (QuitExtraDriver driver)
  else Ret tt.

(** The body of [with SB(uc=True, test=True) as driver:]; [driver] is the
    session the context manager binds. The context manager itself is
    SeleniumBase's and is not in the source: what it does on the way out,
    and what it does with an exception that leaves the body, is not
    modelled. An outcome [Raised] of this tree therefore says that the body
    was left by an exception after those calls, not that the call [run()]
    raises. *)
Definition run (self : t) (driver : Driver) : itree botE unit :=
  open_stream_and_handle_popups self driver 4 ;;
  monitor_kick_stream self driver ;;
  perform (Sleep driver 1) ;;
  monitor_twitch_stream self driver ;;
  perform (Sleep driver 1).

End StreamBot.

(** [main]'s streamer and bot. *)
Definition main_streamer : StreamerInfo :=
  mkStreamerInfo "brutalles" "https://kick.com/brutalles".

Definition main_bot : StreamBot.t := StreamBot.init main_streamer.

(** [main], given the session [run] works with. *)
Definition main (driver : Driver) : itree botE unit :=
  StreamBot.run main_bot driver.

(** ** Vocabulary of the properties *)

(** The consent step: the statement
    [if d.is_element_present('button:contains("Accept")'):
         d.uc_click('button:contains("Accept")', reconnect_time=4)],
    which ends [open_stream_and_handle_popups] (lines 68-69) and occurs in
    the monitors at lines 79-80, 93-94 and 98-99. *)
Definition click_accept_if_present (d : Driver) : itree botE unit :=
  present <- perform (IsElementPresent d accept_button) ;;
  if present : bool
  then perform (UcClick d accept_button 4)
  else Ret tt.

(** The waiting loop of [monitor_kick_stream], lines 82-83:
    [while driver.is_element_visible('#injected-channel-player'):
         driver.sleep(10)]. *)
Definition wait_while_player_visible (driver : Driver) : itree botE unit :=
  while (perform (IsElementVisible driver player_selector))
        (perform (Sleep driver 10)).

(** The two monitors. *)
Inductive platform : Type := Kick | Twitch.

Definition monitor (p : platform) : StreamBot.t -> Driver -> itree botE unit :=
  match p with
  | Kick => StreamBot.monitor_kick_stream
  | Twitch => StreamBot.monitor_twitch_stream
  end.

(** The request [is_twitch_online] sends for a user. *)
Definition liveness_request (user : string) : call :=
  RequestsGet ("https://www.twitch.tv/" ++ user)%string
              [("Client-ID", StreamStatusChecker.TWITCH_CLIENT_ID)].

(** The first call of a monitor, from which it decides whether to act. *)
Definition presence_check (p : platform) (self : StreamBot.t)
  (driver : Driver) : call :=
  match p with
  | Kick => IsElementVisible driver player_selector
  | Twitch => liveness_request (username (StreamBot.streamer self))
  end.

(** What the monitor's condition evaluates to when entered at history [h]:
    [None] when the check raises. *)
Definition presence_at_entry (p : platform) (w : world) (h : trace)
  (self : StreamBot.t) (driver : Driver) : option bool :=
  match p with
  | Kick => w h (IsElementVisible driver player_selector)
  | Twitch =>
      option_map (fun resp => str_in "isLiveBroadcast" (text resp))
        (w h (liveness_request (username (StreamBot.streamer self))))
  end.

(** [needle] occurs in [hay]. *)
Definition occurs (needle hay : string) : Prop :=
  exists pre post : string, hay = (pre ++ needle ++ post)%string.

Definition is_spawn (c : call) : bool :=
  match c with GetNewDriver _ _ => true | _ => false end.

Definition is_teardown (c : call) : bool :=
  match c with QuitExtraDriver _ => true | _ => false end.

Definition is_poll (c : call) : bool :=
  match c with IsElementVisible _ _ => true | _ => false end.

Definition is_wait (c : call) : bool :=
  match c with Sleep _ _ => true | _ => false end.

Definition count (f : call -> bool) (tr : trace) : nat :=
  List.length (List.filter f tr).

(** Secondary sessions created, resp. destroyed, in a trace. *)
Definition spawned : trace -> nat := count is_spawn.
Definition torn_down : trace -> nat := count is_teardown.
(** Evaluations of a visibility predicate, resp. sleeps, in a trace. *)
Definition polls : trace -> nat := count is_poll.
Definition waits : trace -> nat := count is_wait.

(** [n] rounds of the waiting loop: a check that holds, then the sleep. *)
Fixpoint laps (driver : Driver) (n : nat) : trace :=
  match n with
  | O => []
  | S n' =>
      laps driver n' ++
      [IsElementVisible driver player_selector; Sleep driver 10]
  end.

(** [n] is the first index at which [pred] is false. *)
Definition first_false (pred : nat -> bool) (n : nat) : Prop :=
  (forall k, k < n -> pred k = true) /\ pred n = false.

(** Every normal return of [t] from [h] satisfies [Q]. *)
Definition post {R : Type} (w : world) (t : itree botE R) (h : trace)
  (Q : R -> trace -> Prop) : Prop :=
  forall fuel r h' spare, exec w fuel t h = Returned r h' spare -> Q r h'.

(** [t], started at [h], returns at history [h']. *)
Definition returns_at {R : Type} (w : world) (t : itree botE R)
  (h h' : trace) : Prop :=
  exists fuel r spare, exec w fuel t h = Returned r h' spare.

(** [h'] is [h] followed by calls of which [a] create a secondary session
    and [b] destroy one. *)
Definition grown (h : trace) (a b : nat) (h' : trace) : Prop :=
  exists evs, h' = h ++ evs /\ spawned evs = a /\ torn_down evs = b.

(** Whatever the fuel, the history reached by [t] from [h] satisfies [P]:
    also when [t] raises or is still running. *)
Definition always {R : Type} (w : world) (t : itree botE R) (h : trace)
  (P : trace -> Prop) : Prop :=
  forall fuel, P (trace_of (exec w fuel t h)).

(** [t] started at [h] has returned or raised once it has [n] units of
    fuel. *)
Definition halts_within {R : Type} (w : world) (t : itree botE R)
  (h : trace) (n : nat) : Prop :=
  forall fuel, n <= fuel -> forall tr, exec w fuel t h <> OutOfFuel tr.

(** [P] at every history reached, [Q] at every normal return. *)
Definition holds {R : Type} (w : world) (t : itree botE R) (h : trace)
  (P : trace -> Prop) (Q : R -> trace -> Prop) : Prop :=
  always w t h P /\ post w t h Q.

(** Calls that neither create nor destroy a session. *)
Definition routine (c : call) : bool := negb (is_spawn c || is_teardown c).

(** [P] survives one more call, if that call satisfies [allowed]. *)
Definition closed_under (allowed : call -> bool) (P : trace -> Prop) : Prop :=
  forall h c, allowed c = true -> P h -> P (h ++ [c]).

(** The browser sessions that are open: the primary, and how many
    secondary ones. *)
Record sessions := mkSessions { primary_open : bool; secondaries : nat }.

Definition with_secondary (s : sessions) : sessions :=
  mkSessions (primary_open s) (S (secondaries s)).

(** The effect of a call on the open sessions. [get_new_driver] opens a
    secondary session and [quit_extra_driver] closes one; what the library
    does with [quit_extra_driver] when no secondary session is open is not
    the program's business, and is charged here to the primary session,
    the worst case for the primary. No other call of the program opens or
    closes a session. *)
Definition session_step (s : sessions) (c : call) : sessions :=
  match c with
  | GetNewDriver _ _ => with_secondary s
  | QuitExtraDriver _ =>
      match secondaries s with
      | S n => mkSessions (primary_open s) n
      | O => mkSessions false 0
      end
  | _ => s
  end.

Definition sessions_after (s : sessions) (evs : trace) : sessions :=
  fold_left session_step evs s.

(** From [h] to [h'] the open sessions went from [s0] to [s]. *)
Definition sessions_at (s0 s : sessions) (h h' : trace) : Prop :=
  exists evs, h' = h ++ evs /\ sessions_after s0 evs = s.

(** The calls [evs] of the liveness monitor begin with the page request,
    the navigation of the primary session [driver] to the Twitch page with
    budget 5 and the Accept check on the primary, which the world (at
    history [h]) answers with [present]; the click on the primary follows
    iff [present]; the creation of the secondary session comes next. *)
Definition primary_first (w : world) (h : trace) (self : StreamBot.t)
  (driver : Driver) (evs : trace) : Prop :=
  exists (present : bool) (rest : trace),
    w (h ++ [liveness_request (username (StreamBot.streamer self));
             UcOpenWithReconnect driver
               ("https://www.twitch.tv/"
                  ++ username (StreamBot.streamer self))%string 5])
      (IsElementPresent driver accept_button) = Some present
    /\ evs =
       [liveness_request (username (StreamBot.streamer self));
        UcOpenWithReconnect driver
          ("https://www.twitch.tv/"
             ++ username (StreamBot.streamer self))%string 5;
        IsElementPresent driver accept_button]
       ++ (if present then [UcClick driver accept_button 4] else [])
       ++ GetNewDriver driver true :: rest.

(** Since [h], no secondary session has been created. *)
Definition no_secondary_yet (h h' : trace) : Prop :=
  exists evs, h' = h ++ evs /\ spawned evs = 0.

(** Since [h], the calls made begin as [primary_first] says. *)
Definition primary_done (w : world) (h : trace) (self : StreamBot.t)
  (driver : Driver) (h' : trace) : Prop :=
  exists evs, h' = h ++ evs /\ primary_first w h self driver evs.

(** [h'] is [h] followed by calls none of which evaluates a visibility
    predicate. *)
Definition poll_free (h h' : trace) : Prop :=
  exists evs, h' = h ++ evs /\ polls evs = 0.

(** [h'] is [h] followed by calls that all satisfy [allowed]. *)
Definition only (allowed : call -> bool) (h h' : trace) : Prop :=
  exists evs, h' = h ++ evs /\ forallb allowed evs = true.

(** The kinds of call found in the body of [monitor_twitch_stream]: the page
    request, navigation with budget 5, the Accept check and click, session
    creation and teardown, and the 10-second sleep. *)
Definition twitch_monitor_call (c : call) : bool :=
  match c with
  | RequestsGet _ _ | IsElementPresent _ _ | UcClick _ _ _
  | GetNewDriver _ _ | QuitExtraDriver _ => true
  | UcOpenWithReconnect _ _ n => Z.eqb n 5
  | Sleep _ n => Z.eqb n 10
  | UcGuiClickCaptcha _ | UcGuiHandleCaptcha _ | IsElementVisible _ _ => false
  end.

(** The 4-second sleep after a navigation. *)
Definition is_settle (c : call) : bool :=
  match c with Sleep _ n => Z.eqb n 4 | _ => false end.

Definition is_captcha (c : call) : bool :=
  match c with
  | UcGuiClickCaptcha _ | UcGuiHandleCaptcha _ => true
  | _ => false
  end.

(** A call together with what it hands back. *)
Definition reply : Type := {c : call & result_of c}.

Definition answer (c : call) (x : result_of c) : reply :=
  existT result_of c x.

Definition call_of (r : reply) : call := projT1 r.

(** Made in order from history [h], each call of [rs] returns what [rs]
    says. *)
Fixpoint replies_along (w : world) (h : trace) (rs : list reply) : Prop :=
  match rs with
  | [] => True
  | r :: rs' =>
      w h (projT1 r) = Some (projT2 r) /\
      replies_along w (h ++ [projT1 r]) rs'
  end.

(** The first six calls of [open_stream_and_handle_popups], all returning. *)
Definition opening_replies (self : StreamBot.t) (d : Driver)
  (reconnect_time : Z) : list reply :=
  [answer (UcOpenWithReconnect d (platform_url (StreamBot.streamer self))
             reconnect_time) tt;
   answer (Sleep d 4) tt;
   answer (UcGuiClickCaptcha d) tt; answer (Sleep d 1) tt;
   answer (UcGuiHandleCaptcha d) tt; answer (Sleep d 4) tt].

(** The consent step: the check answers [present], and the click, made iff
    [present], returns. *)
Definition accept_replies (d : Driver) (present : bool) : list reply :=
  answer (IsElementPresent d accept_button) present
  :: (if present then [answer (UcClick d accept_button 4) tt] else []).

(** [monitor_kick_stream] from its entry to its waiting loop: the player is
    visible, the new session is [new_driver], every call returns, and the
    Accept checks on the new session answer [p1] and [p2]. *)
Definition kick_entry (self : StreamBot.t) (driver new_driver : Driver)
  (p1 p2 : bool) : list reply :=
  [answer (IsElementVisible driver player_selector) true;
   answer (GetNewDriver driver true) new_driver]
  ++ opening_replies self new_driver 5
  ++ accept_replies new_driver p1
  ++ [answer (Sleep driver 10) tt]
  ++ accept_replies new_driver p2.

(** The history at which [monitor_kick_stream], entered at [h], first
    evaluates the condition of its waiting loop. *)
Definition kick_loop_entry (h : trace) (self : StreamBot.t)
  (driver new_driver : Driver) (p1 p2 : bool) : trace :=
  h ++ List.map call_of (kick_entry self driver new_driver p1 p2).

(** ** Worlds used as concrete inputs *)

(** Nothing raises; the [k]-th visibility check so far answers [script]'s
    [k]-th entry ([false] past its end); the Accept button is present iff
    [accept]; the fetched page is [page]; the new session is handle 1. *)
Definition scripted_world (script : list bool) (accept : bool)
  (page : string) : world := fun h c =>
  match c return option (result_of c) with
  | UcOpenWithReconnect _ _ _ => Some tt
  | Sleep _ _ => Some tt
  | UcGuiClickCaptcha _ => Some tt
  | UcGuiHandleCaptcha _ => Some tt
  | IsElementPresent _ _ => Some accept
  | IsElementVisible _ _ => Some (nth (polls h) script false)
  | UcClick _ _ _ => Some tt
  | GetNewDriver _ _ => Some 1
  | QuitExtraDriver _ => Some tt
  | RequestsGet _ _ => Some (mkResponse page)
  end.

(** No player, no Accept button, channel offline. *)
Definition quiet_world : world := scripted_world [] false "<html></html>".

(** Player visible for three checks, Accept button present, channel live. *)
Definition live_world : world :=
  scripted_world [true; true; true] true
    ("<script>{" ++ dq ++ "isLiveBroadcast" ++ dq ++ ":true}</script>")%string.

(** The player is visible when the monitor is entered and at the first
    three checks of the waiting loop, then gone: the loop's checks answer
    true, true, true, false. *)
Definition thrice_waiting_world : world :=
  scripted_world [true; true; true; true; false] false "".

(** The player never goes away. *)
Definition endless_world : world := fun _ c =>
  match c return option (result_of c) with
  | IsElementPresent _ _ => Some false
  | IsElementVisible _ _ => Some true
  | GetNewDriver _ _ => Some 1
  | RequestsGet _ _ => Some (mkResponse "")
  | UcOpenWithReconnect _ _ _ | Sleep _ _ | UcGuiClickCaptcha _
  | UcGuiHandleCaptcha _ | UcClick _ _ _ | QuitExtraDriver _ => Some tt
  end.


(** The Accept button is there, nothing else is. *)
Definition consenting_world : world :=
  scripted_world [] true "<html></html>".

(** Every call of [evs], made in order from history [h], returns. *)
Fixpoint answered (w : world) (h : trace) (evs : trace) : bool :=
  match evs with
  | [] => true
  | c :: evs' =>
      match w h c with
      | Some _ => answered w (h ++ [c]) evs'
      | None => false
      end
  end.

(** The calls [open_stream_and_handle_popups] makes before it looks for the
    Accept button. *)
Definition calls_before_consent (self : StreamBot.t) (driver : Driver)
  (reconnect_time : Z) : trace :=
  [UcOpenWithReconnect driver (platform_url (StreamBot.streamer self))
     reconnect_time;
   Sleep driver 4;
   UcGuiClickCaptcha driver; Sleep driver 1;
   UcGuiHandleCaptcha driver; Sleep driver 4].

Definition is_click (c : call) : bool :=
  match c with UcClick _ _ _ => true | _ => false end.

(** The pause a click carries: [uc_click(selector, reconnect_time=n)] keeps
    the driver disconnected for [n] seconds after the click, before control
    comes back. *)
Definition settle_of (c : call) : Z :=
  match c with UcClick _ _ n => n | _ => 0%Z end.

(** Seconds of pause after clicks in a trace. *)
Definition click_settle (tr : trace) : Z :=
  fold_right (fun c z => (settle_of c + z)%Z) 0%Z tr.

(** A one-second pause between the opening of the primary page and the
    player monitor: every returning [run] has the calls of the opening,
    then [sleep(1)]. *)
Definition pause_between_open_and_kick (w : world) (self : StreamBot.t)
  (driver : Driver) : Prop :=
  forall fuel tr spare,
    exec w fuel (StreamBot.run self driver) [] = Returned tt tr spare ->
    exists h1 rest,
      returns_at w (StreamBot.open_stream_and_handle_popups self driver 4)
        [] h1
      /\ tr = h1 ++ Sleep driver 1 :: rest.

(** ** Vocabulary of the further properties *)

(** What must hold of a run of [t] from [h] in each of the three ways it can
    stand: [Q] when it has returned, [E] when it has raised, [P] while it is
    still running. *)
Definition outcomes {R : Type} (w : world) (t : itree botE R) (h : trace)
  (Q : R -> trace -> Prop) (E P : trace -> Prop) : Prop :=
  forall fuel,
    match exec w fuel t h with
    | Returned r h' _ => Q r h'
    | Raised h' => E h'
    | OutOfFuel h' => P h'
    end.

(** [tr] ends with a call that the world made raise, made at a history
    satisfying [A]. *)
Definition refused (w : world) (A : trace -> Prop) (tr : trace) : Prop :=
  exists hp c, tr = hp ++ [c] /\ w hp c = None /\ A hp.

(** [t], started at [h], raises at history [tr]. *)
Definition raises_at {R : Type} (w : world) (t : itree botE R)
  (h tr : trace) : Prop :=
  exists fuel, exec w fuel t h = Raised tr.

(** The log of making the calls [evs] in order from [h], stopping after the
    first one that raises. *)
Fixpoint attempted (w : world) (h : trace) (evs : trace) : trace :=
  match evs with
  | [] => h
  | c :: evs' =>
      match w h c with
      | Some _ => attempted w (h ++ [c]) evs'
      | None => h ++ [c]
      end
  end.

(** Seconds asked of [sleep] in a trace. *)
Definition seconds_of (c : call) : Z :=
  match c with Sleep _ n => n | _ => 0%Z end.

Definition slept (tr : trace) : Z :=
  fold_right (fun c z => (seconds_of c + z)%Z) 0%Z tr.

(** The session a call is made on; the page request is made on none. *)
Definition session_of (c : call) : option Driver :=
  match c with
  | UcOpenWithReconnect d _ _ | Sleep d _ | UcGuiClickCaptcha d
  | UcGuiHandleCaptcha d | IsElementPresent d _ | IsElementVisible d _
  | UcClick d _ _ | GetNewDriver d _ | QuitExtraDriver d => Some d
  | RequestsGet _ _ => None
  end.

(** A call made on session [d] that neither creates nor destroys a session
    and is not a visibility check. *)
Definition plain_on (d : Driver) (c : call) : bool :=
  match session_of c with
  | Some d' => Nat.eqb d' d && routine c && negb (is_poll c)
  | None => false
  end.

(** The calls of a returning [monitor_kick_stream] that found the player
    visible: [new_driver] is the secondary session, [p1] and [p2] say
    whether the Accept button was present at the two checks on it, and [n]
    is the number of rounds of the waiting loop. *)
Definition kick_calls (self : StreamBot.t) (driver new_driver : Driver)
  (p1 p2 : bool) (n : nat) : trace :=
  [IsElementVisible driver player_selector; GetNewDriver driver true]
  ++ calls_before_consent self new_driver 5
  ++ IsElementPresent new_driver accept_button
     :: (if p1 then [UcClick new_driver accept_button 4] else [])
  ++ [Sleep driver 10]
  ++ IsElementPresent new_driver accept_button
     :: (if p2 then [UcClick new_driver accept_button 4] else [])
  ++ laps driver n
  ++ [IsElementVisible driver player_selector; QuitExtraDriver driver].

(** Since [h], at most one secondary session has been created and none has
    been destroyed. *)
Definition secondary_kept (h h' : trace) : Prop :=
  exists evs, h' = h ++ evs /\ spawned evs <= 1 /\ torn_down evs = 0.

(** Nothing raises, the player is visible at the first two checks, and the
    click on the secondary session (handle 1) raises. *)
Definition failing_click_world : world := fun h c =>
  match c return option (result_of c) with
  | UcClick 1 _ _ => None
  | UcClick _ _ _ => Some tt
  | UcOpenWithReconnect _ _ _ | Sleep _ _ | UcGuiClickCaptcha _
  | UcGuiHandleCaptcha _ | QuitExtraDriver _ => Some tt
  | IsElementPresent _ _ => Some true
  | IsElementVisible _ _ => Some true
  | GetNewDriver _ _ => Some 1
  | RequestsGet _ _ => Some (mkResponse "isLiveBroadcast")
  end.

(** Every browser call returns and nothing is on the page; the page request
    raises. *)
Definition offline_world : world := fun h c =>
  match c return option (result_of c) with
  | RequestsGet _ _ => None
  | IsElementPresent _ _ | IsElementVisible _ _ => Some false
  | GetNewDriver _ _ => Some 1
  | UcOpenWithReconnect _ _ _ | Sleep _ _ | UcGuiClickCaptcha _
  | UcGuiHandleCaptcha _ | UcClick _ _ _ | QuitExtraDriver _ => Some tt
  end.

(** ** Execution respects strong bisimulation *)

Lemma exec_eq_itree {R : Type} (w : world) (fuel : nat) :
  forall (t t' : itree botE R) (h : trace),
    t ≅ t' -> exec w fuel t h = exec w fuel t' h.
Proof.
  induction fuel as [|fuel IH]; intros t t' h Heq; [reflexivity|].
  rewrite (itree_eta t') in Heq. simpl.
  destruct (observe t') as [r | u | X e k] eqn:Ht'.
  - apply eqitree_inv_Ret_r in Heq. rewrite Heq. reflexivity.
  - apply eqitree_inv_Tau_r in Heq. destruct Heq as (u' & Hu & Heq).
    rewrite Hu. apply IH, Heq.
  - apply eqitree_inv_Vis_r in Heq. destruct Heq as (k' & Hk & Heq).
    rewrite Hk. destruct e as [c].
    destruct (w h c) as [x|]; [apply IH, Heq | reflexivity].
Qed.

#[global] Instance exec_Proper {R : Type} (w : world) (fuel : nat) :
  Proper (eq_itree eq ==> eq ==> eq) (@exec R w fuel).
Proof. intros t t' Heq h h' <-. apply exec_eq_itree, Heq. Qed.

(** ** Equations of [exec] *)

Lemma exec_ret {R : Type} (w : world) (fuel : nat) (r : R) (h : trace) :
  exec w (S fuel) (Ret r) h = Returned r h fuel.
Proof. reflexivity. Qed.

Lemma exec_tau {R : Type} (w : world) (fuel : nat) (t : itree botE R) h :
  exec w (S fuel) (Tau t) h = exec w fuel t h.
Proof. reflexivity. Qed.

Lemma exec_call {R : Type} (w : world) (fuel : nat) (c : call)
  (k : result_of c -> itree botE R) (h : trace) :
  exec w (S fuel) (ITree.bind (perform c) k) h =
  match w h c with
  | Some x => exec w fuel (k x) (h ++ [c])
  | None => Raised (h ++ [c])
  end.
Proof. unfold perform. rewrite bind_trigger. reflexivity. Qed.

Lemma exec_perform (w : world) (fuel : nat) (c : call) (h : trace) :
  exec w (S fuel) (perform c) h =
  match w h c with
  | Some x => exec w fuel (Ret x) (h ++ [c])
  | None => Raised (h ++ [c])
  end.
Proof. reflexivity. Qed.

(** Sequencing: the continuation starts where the first part returned, with
    the fuel it spared plus the unit its [Ret] node took. *)
Lemma exec_bind {A R : Type} (w : world) (fuel : nat) :
  forall (t : itree botE A) (k : A -> itree botE R) (h : trace),
    exec w fuel (ITree.bind t k) h =
    match exec w fuel t h with
    | Returned x h' spare => exec w (S spare) (k x) h'
    | Raised h' => Raised h'
    | OutOfFuel h' => OutOfFuel h'
    end.
Proof.
  induction fuel as [|fuel IH]; intros t k h; [reflexivity|].
  rewrite unfold_bind. simpl exec at 2.
  destruct (observe t) as [r | u | X e ke].
  - reflexivity.
  - rewrite exec_tau. apply IH.
  - destruct e as [c]. simpl.
    destruct (w h c) as [x|]; [apply IH | reflexivity].
Qed.

Lemma exec_while (w : world) (fuel : nat) (cond : itree botE bool)
  (body : itree botE unit) (h : trace) :
  exec w fuel (while cond body) h =
  exec w fuel (b <- cond ;;
               if b : bool then body ;; Tau (while cond body) else Ret tt) h.
Proof.
  unfold while at 1. rewrite unfold_iter, bind_bind.
  apply exec_eq_itree. apply eqit_bind; [reflexivity|].
  intros [|].
  - rewrite bind_bind. apply eqit_bind; [reflexivity|].
    intros []. rewrite bind_ret_l. reflexivity.
  - rewrite bind_ret_l. reflexivity.
Qed.

(** ** Fuel *)

Lemma exec_spare_lt {R : Type} (w : world) (fuel : nat) :
  forall (t : itree botE R) (h h' : trace) (r : R) (spare : nat),
    exec w fuel t h = Returned r h' spare -> spare < fuel.
Proof.
  induction fuel as [|fuel IH]; intros t h h' r spare; simpl; [discriminate|].
  destruct (observe t) as [r0 | u | X e k].
  - intros [= _ _ <-]. lia.
  - intros H. apply IH in H. lia.
  - destruct e as [c]. destruct (w h c) as [x|]; [|discriminate].
    intros H. apply IH in H. lia.
Qed.

(** A run that has finished is not changed by more fuel. *)
Lemma exec_more_fuel {R : Type} (w : world) (extra fuel : nat) :
  forall (t : itree botE R) (h : trace),
    match exec w fuel t h with
    | Returned r h' spare =>
        exec w (fuel + extra) t h = Returned r h' (spare + extra)
    | Raised h' => exec w (fuel + extra) t h = Raised h'
    | OutOfFuel _ => True
    end.
Proof.
  induction fuel as [|fuel IH]; intros t h; simpl; [exact I|].
  destruct (observe t) as [r0 | u | X e k].
  - reflexivity.
  - apply IH.
  - destruct e as [c]. destruct (w h c) as [x|]; [apply IH | reflexivity].
Qed.

Lemma exec_returned_unique {R : Type} (w : world) (t : itree botE R)
  (h : trace) (f1 f2 : nat) (r1 r2 : R) (h1 h2 : trace) (s1 s2 : nat) :
  exec w f1 t h = Returned r1 h1 s1 ->
  exec w f2 t h = Returned r2 h2 s2 ->
  r1 = r2 /\ h1 = h2.
Proof.
  intros H1 H2.
  pose proof (exec_more_fuel w f2 f1 t h) as M1. rewrite H1 in M1.
  pose proof (exec_more_fuel w f1 f2 t h) as M2. rewrite H2 in M2.
  rewrite (Nat.add_comm f2 f1) in M2. rewrite M1 in M2.
  injection M2 as -> -> _. split; reflexivity.
Qed.

(** ** Rules for [post] *)

Lemma post_ret {R : Type} (w : world) (r : R) (h : trace)
  (Q : R -> trace -> Prop) :
  Q r h -> post w (Ret r) h Q.
Proof.
  intros HQ [|fuel] r' h' spare; simpl; [discriminate|].
  intros [= <- <- _]. exact HQ.
Qed.

Lemma post_call {R : Type} (w : world) (c : call)
  (k : result_of c -> itree botE R) (h : trace) (Q : R -> trace -> Prop) :
  (forall x, w h c = Some x -> post w (k x) (h ++ [c]) Q) ->
  post w (ITree.bind (perform c) k) h Q.
Proof.
  intros Hk [|fuel] r h' spare; [discriminate|].
  rewrite exec_call. destruct (w h c) as [x|] eqn:Hw; [|discriminate].
  apply (Hk x eq_refl).
Qed.

Lemma post_perform (w : world) (c : call) (h : trace)
  (Q : result_of c -> trace -> Prop) :
  (forall x, w h c = Some x -> Q x (h ++ [c])) ->
  post w (perform c) h Q.
Proof.
  intros Hk [|fuel] r h' spare; [discriminate|].
  rewrite exec_perform. destruct (w h c) as [x|] eqn:Hw; [|discriminate].
  destruct fuel; simpl; [discriminate|].
  intros [= <- <- _]. apply Hk. reflexivity.
Qed.

Lemma post_bind {A R : Type} (w : world) (t : itree botE A)
  (k : A -> itree botE R) (h : trace) (Q : R -> trace -> Prop) :
  post w t h (fun x h' => post w (k x) h' Q) ->
  post w (ITree.bind t k) h Q.
Proof.
  intros Ht fuel r h' spare. rewrite exec_bind.
  destruct (exec w fuel t h) as [x h1 s1 | h1 | h1] eqn:E; try discriminate.
  apply (Ht _ _ _ _ E).
Qed.

Lemma post_weaken {R : Type} (w : world) (t : itree botE R) (h : trace)
  (Q Q' : R -> trace -> Prop) :
  post w t h Q -> (forall r h', Q r h' -> Q' r h') -> post w t h Q'.
Proof. intros Ht HQ fuel r h' spare E. apply HQ, (Ht _ _ _ _ E). Qed.

(** The loop rule: [Inv] holds whenever the condition is about to be
    evaluated; the loop is left at the first evaluation that is false. *)
Lemma post_while (w : world) (cond : itree botE bool)
  (body : itree botE unit) (Inv : trace -> Prop)
  (Q : unit -> trace -> Prop) :
  (forall h0, Inv h0 ->
     post w cond h0 (fun b h1 =>
       if b : bool then post w body h1 (fun _ h2 => Inv h2) else Q tt h1)) ->
  forall h, Inv h -> post w (while cond body) h Q.
Proof.
  intros Hstep h Hinv fuel. revert h Hinv.
  induction fuel as [fuel IH] using lt_wf_ind.
  intros h Hinv r h' spare. rewrite exec_while, exec_bind.
  destruct (exec w fuel cond h) as [b h1 s1 | h1 | h1] eqn:Ec;
    try discriminate.
  pose proof (Hstep h Hinv _ _ _ _ Ec) as Hb. cbv beta in Hb.
  pose proof (exec_spare_lt _ _ _ _ _ _ _ Ec) as Hs1.
  destruct b.
  - rewrite exec_bind.
    destruct (exec w (S s1) body h1) as [[] h2 s2 | h2 | h2] eqn:Eb;
      try discriminate.
    pose proof (exec_spare_lt _ _ _ _ _ _ _ Eb) as Hs2.
    rewrite exec_tau. apply IH; [lia|].
    apply (Hb _ _ _ _ Eb).
  - rewrite exec_ret. intros [= <- <- _]. exact Hb.
Qed.

(** ** Rules for [always] and [halts_within] *)

Lemma always_ret {R : Type} (w : world) (r : R) (h : trace)
  (P : trace -> Prop) :
  P h -> always w (Ret r) h P.
Proof. intros HP [|fuel]; exact HP. Qed.

Lemma always_call {R : Type} (w : world) (c : call)
  (k : result_of c -> itree botE R) (h : trace) (P : trace -> Prop) :
  P h -> P (h ++ [c]) ->
  (forall x, w h c = Some x -> always w (k x) (h ++ [c]) P) ->
  always w (ITree.bind (perform c) k) h P.
Proof.
  intros HP HPc Hk [|fuel]; [exact HP|].
  unfold always in Hk. rewrite exec_call.
  destruct (w h c) as [x|]; [apply (Hk x eq_refl) | exact HPc].
Qed.

Lemma always_perform (w : world) (c : call) (h : trace)
  (P : trace -> Prop) :
  P h -> P (h ++ [c]) -> always w (perform c) h P.
Proof.
  intros HP HPc [|fuel]; [exact HP|].
  rewrite exec_perform. destruct (w h c) as [x|]; [|exact HPc].
  destruct fuel; exact HPc.
Qed.

Lemma always_bind {A R : Type} (w : world) (t : itree botE A)
  (k : A -> itree botE R) (h : trace) (P : trace -> Prop) :
  always w t h P ->
  post w t h (fun x h' => always w (k x) h' P) ->
  always w (ITree.bind t k) h P.
Proof.
  intros Ht Hk fuel. rewrite exec_bind. specialize (Ht fuel).
  destruct (exec w fuel t h) as [x h1 s1 | h1 | h1] eqn:E; try exact Ht.
  apply (Hk _ _ _ _ E).
Qed.

Lemma halts_ret {R : Type} (w : world) (r : R) (h : trace) :
  halts_within w (Ret r) h 1.
Proof. intros [|fuel] Hf tr; [lia | discriminate]. Qed.

Lemma halts_call {R : Type} (w : world) (c : call)
  (k : result_of c -> itree botE R) (h : trace) (n : nat) :
  (forall x, w h c = Some x -> halts_within w (k x) (h ++ [c]) n) ->
  halts_within w (ITree.bind (perform c) k) h (S n).
Proof.
  intros Hk [|fuel] Hf tr; [lia|]. rewrite exec_call.
  destruct (w h c) as [x|]; [|discriminate].
  apply (Hk x eq_refl). lia.
Qed.

Lemma halts_perform (w : world) (c : call) (h : trace) :
  halts_within w (perform c) h 2.
Proof.
  intros [|[|fuel]] Hf tr; try lia. rewrite exec_perform.
  destruct (w h c); discriminate.
Qed.

Lemma halts_bind {A R : Type} (w : world) (t : itree botE A)
  (k : A -> itree botE R) (h : trace) (n m : nat) :
  halts_within w t h n ->
  post w t h (fun x h' => halts_within w (k x) h' m) ->
  halts_within w (ITree.bind t k) h (n + m).
Proof.
  intros Ht Hk fuel Hf tr. rewrite exec_bind.
  destruct (exec w fuel t h) as [x h1 s1 | h1 | h1] eqn:E.
  - apply (Hk _ _ _ _ E).
    pose proof (exec_more_fuel w (fuel - n) n t h) as M.
    replace (n + (fuel - n)) with fuel in M by lia.
    destruct (exec w n t h) as [x0 h0 s0 | h0 | h0] eqn:En.
    + rewrite E in M. injection M as _ _ ->. lia.
    + rewrite E in M. discriminate M.
    + contradiction (Ht n (Nat.le_refl n) h0).
  - discriminate.
  - contradiction (Ht fuel (Nat.le_trans _ _ _ (Nat.le_add_r n m) Hf) h1).
Qed.

Lemma halts_weaken {R : Type} (w : world) (t : itree botE R) (h : trace)
  (n m : nat) :
  halts_within w t h n -> n <= m -> halts_within w t h m.
Proof. intros Ht Hnm fuel Hf. apply Ht. lia. Qed.

(** ** Rules for [holds] *)

Lemma holds_ret {R : Type} (w : world) (r : R) (h : trace)
  (P : trace -> Prop) (Q : R -> trace -> Prop) :
  P h -> Q r h -> holds w (Ret r) h P Q.
Proof. intros HP HQ. split; [apply always_ret, HP | apply post_ret, HQ]. Qed.

Lemma holds_call {R : Type} (w : world) (c : call)
  (k : result_of c -> itree botE R) (h : trace)
  (P : trace -> Prop) (Q : R -> trace -> Prop) :
  P h -> P (h ++ [c]) ->
  (forall x, w h c = Some x -> holds w (k x) (h ++ [c]) P Q) ->
  holds w (ITree.bind (perform c) k) h P Q.
Proof.
  intros HP HPc Hk. split.
  - apply always_call; [exact HP | exact HPc |].
    intros x Hx. apply (Hk x Hx).
  - apply post_call. intros x Hx. apply (Hk x Hx).
Qed.

Lemma holds_perform (w : world) (c : call) (h : trace)
  (P : trace -> Prop) (Q : result_of c -> trace -> Prop) :
  P h -> P (h ++ [c]) ->
  (forall x, w h c = Some x -> Q x (h ++ [c])) ->
  holds w (perform c) h P Q.
Proof.
  intros HP HPc HQ. split;
    [apply always_perform; assumption | apply post_perform, HQ].
Qed.

Lemma holds_bind {A R : Type} (w : world) (t : itree botE A)
  (k : A -> itree botE R) (h : trace)
  (P : trace -> Prop) (Q : R -> trace -> Prop) :
  holds w t h P (fun x h' => holds w (k x) h' P Q) ->
  holds w (ITree.bind t k) h P Q.
Proof.
  intros [Ht Hk]. split.
  - apply always_bind; [exact Ht|].
    eapply post_weaken; [exact Hk|]. intros x h' H. apply H.
  - apply post_bind.
    eapply post_weaken; [exact Hk|]. intros x h' H. apply H.
Qed.

Lemma holds_consequence {R : Type} (w : world) (t : itree botE R)
  (h : trace) (P P' : trace -> Prop) (Q Q' : R -> trace -> Prop) :
  holds w t h P Q ->
  (forall h', P h' -> P' h') ->
  (forall r h', Q r h' -> Q' r h') ->
  holds w t h P' Q'.
Proof.
  intros [Ha Hp] HP HQ. split.
  - intros fuel. apply HP, Ha.
  - apply (post_weaken _ _ _ _ _ Hp HQ).
Qed.

(** The loop rule: [Inv] whenever the condition is about to be evaluated. *)
Lemma holds_while (w : world) (cond : itree botE bool)
  (body : itree botE unit) (Inv P : trace -> Prop)
  (Q : unit -> trace -> Prop) :
  (forall h0, Inv h0 ->
     holds w cond h0 P (fun b h1 =>
       if b : bool then holds w body h1 P (fun _ h2 => Inv h2)
       else P h1 /\ Q tt h1)) ->
  forall h, Inv h -> holds w (while cond body) h P Q.
Proof.
  intros Hstep h Hinv. split.
  - intros fuel. revert h Hinv.
    induction fuel as [fuel IH] using lt_wf_ind. intros h Hinv.
    rewrite exec_while, exec_bind.
    destruct (Hstep h Hinv) as [Ac Pc]. specialize (Ac fuel).
    destruct (exec w fuel cond h) as [b h1 s1 | h1 | h1] eqn:Ec;
      try exact Ac.
    pose proof (Pc _ _ _ _ Ec) as Hb. cbv beta in Hb.
    pose proof (exec_spare_lt _ _ _ _ _ _ _ Ec) as Hs1.
    destruct b.
    + destruct Hb as [Ab Pb]. rewrite exec_bind. specialize (Ab (S s1)).
      destruct (exec w (S s1) body h1) as [[] h2 s2 | h2 | h2] eqn:Eb;
        try exact Ab.
      pose proof (exec_spare_lt _ _ _ _ _ _ _ Eb) as Hs2.
      rewrite exec_tau. apply IH; [lia|]. apply (Pb _ _ _ _ Eb).
    + rewrite exec_ret. apply Hb.
  - apply (post_while w cond body Inv Q); [|exact Hinv].
    intros h0 H0. destruct (Hstep h0 H0) as [_ Pc].
    eapply post_weaken; [exact Pc|].
    intros [|] h1 H; [apply H | apply H].
Qed.

(** ** Substring test *)

Lemma prefix_spec (a b : string) :
  String.prefix a b = true <-> exists post, b = (a ++ post)%string.
Proof.
  revert b. induction a as [|x a IH]; intros b.
  - split; [intros _; exists b; reflexivity | destruct b; reflexivity].
  - destruct b as [|y b]; simpl.
    + split; [discriminate | intros [post H]; discriminate].
    + destruct (ascii_dec x y) as [->|Hxy].
      * rewrite IH. split; intros [post H]; exists post.
        -- rewrite H. reflexivity.
        -- injection H as H. exact H.
      * split; [discriminate|]. intros [post H]. injection H as Hx _.
        contradiction Hxy. symmetry. exact Hx.
Qed.

Lemma str_in_unfold (needle hay : string) :
  str_in needle hay =
  if String.prefix needle hay then true
  else match hay with
       | EmptyString => false
       | String _ hay' => str_in needle hay'
       end.
Proof. destruct hay; reflexivity. Qed.

Lemma prefix_occurs (needle hay : string) :
  String.prefix needle hay = true -> occurs needle hay.
Proof.
  intros P. apply prefix_spec in P. destruct P as [post P].
  exists ""%string, post. exact P.
Qed.

Lemma str_in_spec (needle hay : string) :
  str_in needle hay = true <-> occurs needle hay.
Proof.
  induction hay as [|c hay IH]; rewrite str_in_unfold;
    destruct (String.prefix needle _) eqn:P;
    try (split; [intros _; apply prefix_occurs, P | reflexivity]).
  - split; [discriminate|]. intros (pre & post & H).
    destruct pre as [|p pre]; [|discriminate].
    rewrite <- P. apply prefix_spec. exists post. exact H.
  - rewrite IH. split.
    + intros (pre & post & H). exists (String c pre), post.
      rewrite H. reflexivity.
    + intros (pre & post & H). destruct pre as [|p pre].
      * assert (String.prefix needle (String c hay) = true) as P'
          by (apply prefix_spec; exists post; exact H).
        rewrite P in P'. discriminate.
      * injection H as _ H. exists pre, post. exact H.
Qed.

(** ** The liveness probe *)

Lemma exec_is_twitch_online (w : world) (h : trace) (user : string)
  (fuel : nat) :
  exec w (S (S fuel)) (StreamStatusChecker.is_twitch_online user) h =
  match w h (liveness_request user) with
  | Some resp =>
      Returned (str_in "isLiveBroadcast" (text resp))
               (h ++ [liveness_request user]) fuel
  | None => Raised (h ++ [liveness_request user])
  end.
Proof.
  unfold StreamStatusChecker.is_twitch_online. cbv zeta.
  rewrite exec_call. fold (liveness_request user).
  destruct (w h (liveness_request user)); reflexivity.
Qed.

(** C1: whenever the request is answered with a response, [is_twitch_online]
    returns a boolean that is true exactly when ["isLiveBroadcast"] occurs in
    the response body, and false exactly when it does not. *)
Theorem is_twitch_online_iff_marker (w : world) (h : trace) (user : string)
  (resp : Response) (fuel : nat) :
  w h (liveness_request user) = Some resp ->
  exists b : bool,
    exec w (S (S fuel)) (StreamStatusChecker.is_twitch_online user) h =
      Returned b (h ++ [liveness_request user]) fuel
    /\ (b = true <-> occurs "isLiveBroadcast" (text resp))
    /\ (b = false <-> ~ occurs "isLiveBroadcast" (text resp)).
Proof.
  intros Hw. exists (str_in "isLiveBroadcast" (text resp)).
  rewrite exec_is_twitch_online, Hw. split; [reflexivity|].
  split; [apply str_in_spec|].
  rewrite <- str_in_spec.
  destruct (str_in "isLiveBroadcast" (text resp)); split; intros H;
    try reflexivity; try discriminate.
  contradiction H. reflexivity.
Qed.

Lemma is_twitch_online_iff_marker_witness :
  (live_world [] (liveness_request "brutalles") =
     Some (mkResponse
             ("<script>{" ++ dq ++ "isLiveBroadcast" ++ dq ++ ":true}</script>")))
  /\ exists b : bool,
       exec live_world 2 (StreamStatusChecker.is_twitch_online "brutalles") [] =
         Returned b ([] ++ [liveness_request "brutalles"]) 0
       /\ (b = true <->
           occurs "isLiveBroadcast"
             ("<script>{" ++ dq ++ "isLiveBroadcast" ++ dq ++ ":true}</script>"))
       /\ (b = false <->
           ~ occurs "isLiveBroadcast"
             ("<script>{" ++ dq ++ "isLiveBroadcast" ++ dq ++ ":true}</script>")).
Proof.
  split; [reflexivity|].
  apply (is_twitch_online_iff_marker live_world [] "brutalles"
           (mkResponse _) 0).
  reflexivity.
Defined.

(** ** The monitors when nothing is there *)

(** C4: in either monitor, when the condition checked at entry is false the
    call returns at once, and the check is the only call it has made: no
    session is created or closed, nothing is opened, nothing is clicked. *)
Theorem monitor_absent_only_checks (p : platform) (w : world) (h : trace)
  (self : StreamBot.t) (driver : Driver) (fuel : nat) :
  presence_at_entry p w h self driver = Some false ->
  exec w (S (S fuel)) (monitor p self driver) h =
  Returned tt (h ++ [presence_check p self driver]) fuel.
Proof.
  destruct p; unfold presence_at_entry, presence_check, monitor; intros Hp.
  - unfold StreamBot.monitor_kick_stream. rewrite exec_call, Hp.
    reflexivity.
  - unfold StreamBot.monitor_twitch_stream. rewrite exec_bind.
    rewrite exec_is_twitch_online.
    destruct (w h (liveness_request (username (StreamBot.streamer self))))
      as [resp|]; [|discriminate].
    injection Hp as ->. reflexivity.
Qed.

Lemma monitor_absent_only_checks_witness :
  (presence_at_entry Kick quiet_world [] main_bot 0 = Some false /\
   exec quiet_world 2 (monitor Kick main_bot 0) [] =
   Returned tt ([] ++ [presence_check Kick main_bot 0]) 0) /\
  (presence_at_entry Twitch quiet_world [] main_bot 0 = Some false /\
   exec quiet_world 2 (monitor Twitch main_bot 0) [] =
   Returned tt ([] ++ [presence_check Twitch main_bot 0]) 0).
Proof.
  split; (split; [reflexivity|]);
    apply monitor_absent_only_checks; reflexivity.
Defined.

(** ** The methods in terms of their parts *)

Remark open_stream_and_handle_popups_parts (self : StreamBot.t)
  (driver : Driver) (reconnect_time : Z) :
  StreamBot.open_stream_and_handle_popups self driver reconnect_time =
  (perform (UcOpenWithReconnect driver
              (platform_url (StreamBot.streamer self)) reconnect_time) ;;
   perform (Sleep driver 4) ;;
   CaptchaHandler.handle_captcha (CaptchaHandler.init driver) ;;
   click_accept_if_present driver).
Proof. reflexivity. Qed.

Remark monitor_kick_stream_parts (self : StreamBot.t) (driver : Driver) :
  StreamBot.monitor_kick_stream self driver =
  (visible <- perform (IsElementVisible driver player_selector) ;;
   if visible : bool then
     new_driver <- perform (GetNewDriver driver true) ;;
     StreamBot.open_stream_and_handle_popups self new_driver 5 ;;
     perform (Sleep driver 10) ;;
     click_accept_if_present new_driver ;;
     wait_while_player_visible driver ;;
     perform (QuitExtraDriver driver)
   else Ret tt).
Proof. reflexivity. Qed.

Remark monitor_twitch_stream_parts (self : StreamBot.t) (driver : Driver) :
  StreamBot.monitor_twitch_stream self driver =
  (online <- StreamStatusChecker.is_twitch_online
               (username (StreamBot.streamer self)) ;;
   if online : bool then
     perform (UcOpenWithReconnect driver
                ("https://www.twitch.tv/"
                   ++ username (StreamBot.streamer self))%string 5) ;;
     click_accept_if_present driver ;;
     new_driver <- perform (GetNewDriver driver true) ;;
     perform (UcOpenWithReconnect new_driver
                ("https://www.twitch.tv/"
                   ++ username (StreamBot.streamer self))%string 5) ;;
     perform (Sleep driver 10) ;;
     click_accept_if_present new_driver ;;
     perform (QuitExtraDriver driver)
   else Ret tt).
Proof. reflexivity. Qed.

(** ** The consent step *)

Lemma exec_click_accept_if_present (w : world) (h : trace) (d : Driver)
  (fuel : nat) :
  exec w (S (S (S fuel))) (click_accept_if_present d) h =
  match w h (IsElementPresent d accept_button) with
  | Some true =>
      match w (h ++ [IsElementPresent d accept_button])
              (UcClick d accept_button 4) with
      | Some _ =>
          Returned tt (h ++ [IsElementPresent d accept_button;
                             UcClick d accept_button 4]) fuel
      | None =>
          Raised (h ++ [IsElementPresent d accept_button;
                        UcClick d accept_button 4])
      end
  | Some false => Returned tt (h ++ [IsElementPresent d accept_button]) (S fuel)
  | None => Raised (h ++ [IsElementPresent d accept_button])
  end.
Proof.
  unfold click_accept_if_present. rewrite exec_call.
  destruct (w h (IsElementPresent d accept_button)) as [[|]|];
    try reflexivity.
  rewrite (exec_perform w _ (UcClick d accept_button 4)).
  destruct (w _ (UcClick d accept_button 4)) as [[]|];
    rewrite <- app_assoc; reflexivity.
Qed.

Lemma exec_handle_captcha (w : world) (h : trace) (d : Driver) (fuel : nat) :
  answered w h [UcGuiClickCaptcha d; Sleep d 1;
                UcGuiHandleCaptcha d; Sleep d 4] = true ->
  exec w (5 + fuel) (CaptchaHandler.handle_captcha (CaptchaHandler.init d)) h =
  Returned tt (h ++ [UcGuiClickCaptcha d; Sleep d 1;
                     UcGuiHandleCaptcha d; Sleep d 4]) fuel.
Proof.
  unfold CaptchaHandler.handle_captcha, answered. simpl CaptchaHandler.driver.
  simpl plus. intros H.
  rewrite exec_call. destruct (w h _) as [[]|]; [|discriminate].
  rewrite exec_call. destruct (w _ (Sleep d 1)) as [[]|]; [|discriminate].
  rewrite exec_call.
  destruct (w _ (UcGuiHandleCaptcha d)) as [[]|]; [|discriminate].
  rewrite (exec_perform w _ (Sleep d 4)).
  destruct (w _ (Sleep d 4)) as [[]|]; [|discriminate].
  rewrite exec_ret. repeat rewrite <- app_assoc. reflexivity.
Qed.

(** The opening once its first six calls have returned: what it does is
    decided by the Accept check and, when the button is there, by the
    click. *)
Lemma exec_open_stream (w : world) (h : trace)
  (self : StreamBot.t) (driver : Driver) (reconnect_time : Z)
  (present : bool) (fuel : nat) :
  answered w h (calls_before_consent self driver reconnect_time) = true ->
  w (h ++ calls_before_consent self driver reconnect_time)
    (IsElementPresent driver accept_button) = Some present ->
  exec w (9 + fuel)
    (StreamBot.open_stream_and_handle_popups self driver reconnect_time) h =
  if present then
    match w (h ++ calls_before_consent self driver reconnect_time
               ++ [IsElementPresent driver accept_button])
            (UcClick driver accept_button 4) with
    | Some _ =>
        Returned tt
          (h ++ calls_before_consent self driver reconnect_time
             ++ [IsElementPresent driver accept_button;
                 UcClick driver accept_button 4]) fuel
    | None =>
        Raised
          (h ++ calls_before_consent self driver reconnect_time
             ++ [IsElementPresent driver accept_button;
                 UcClick driver accept_button 4])
    end
  else
    Returned tt
      (h ++ calls_before_consent self driver reconnect_time
         ++ [IsElementPresent driver accept_button]) (S fuel).
Proof.
  unfold StreamBot.open_stream_and_handle_popups, calls_before_consent.
  cbv zeta. cbn [answered]. intros Hans Hp.
  change (9 + fuel) with (S (S (7 + fuel))).
  rewrite exec_call. destruct (w h _) as [[]|]; [|discriminate].
  rewrite exec_call. destruct (w _ (Sleep driver 4)) as [[]|]; [|discriminate].
  rewrite exec_bind.
  change (7 + fuel) with (5 + S (S fuel)).
  rewrite (exec_handle_captcha _ _ _ _ Hans).
  fold (click_accept_if_present driver).
  rewrite exec_click_accept_if_present.
  repeat rewrite <- app_assoc. cbn [app].
  cbn [app] in Hp. rewrite Hp.
  destruct present; [|reflexivity].
  replace (h ++ _ :: _ :: _ :: _ :: _ :: _ :: [_]) with
    (h ++ calls_before_consent self driver reconnect_time
       ++ [IsElementPresent driver accept_button])
    by reflexivity.
  unfold calls_before_consent. cbn [app].
  repeat rewrite <- app_assoc. reflexivity.
Qed.

(** C7: once [open_stream_and_handle_popups] has got to the consent step, a
    present Accept button gets exactly one click, and that click carries a
    fixed pause: it is called with [reconnect_time=4], whatever the
    function's own [reconnect_time], so 4 seconds of settle follow the
    click; the function then returns (or raises, if the click raises). An
    absent button makes the step a no-op that does not raise: the function
    returns after the presence check, with no click and no pause. *)
Theorem consent_step_one_click_with_settle (w : world) (h : trace)
  (self : StreamBot.t) (driver : Driver) (reconnect_time : Z)
  (present : bool) (fuel : nat) :
  answered w h (calls_before_consent self driver reconnect_time) = true ->
  w (h ++ calls_before_consent self driver reconnect_time)
    (IsElementPresent driver accept_button) = Some present ->
  exists evs,
    evs = calls_before_consent self driver reconnect_time
          ++ IsElementPresent driver accept_button
             :: (if present then [UcClick driver accept_button 4] else [])
    /\ exec w (9 + fuel)
         (StreamBot.open_stream_and_handle_popups self driver reconnect_time)
         h =
       (if present then
          match w (h ++ calls_before_consent self driver reconnect_time
                     ++ [IsElementPresent driver accept_button])
                  (UcClick driver accept_button 4) with
          | Some _ => Returned tt (h ++ evs) fuel
          | None => Raised (h ++ evs)
          end
        else Returned tt (h ++ evs) (S fuel))
    /\ count is_click evs = (if present then 1 else 0)
    /\ click_settle evs = (if present then 4 else 0)%Z.
Proof.
  intros Hans Hp. eexists. split; [reflexivity|].
  split; [|destruct present; split; reflexivity].
  rewrite (exec_open_stream w h self driver reconnect_time present fuel
             Hans Hp).
  destruct present; reflexivity.
Qed.

Lemma consent_step_one_click_with_settle_witness :
  (answered consenting_world [] (calls_before_consent main_bot 0 4) = true /\
   consenting_world ([] ++ calls_before_consent main_bot 0 4)
     (IsElementPresent 0 accept_button) = Some true /\
   exists evs,
     evs = calls_before_consent main_bot 0 4
           ++ [IsElementPresent 0 accept_button; UcClick 0 accept_button 4]
     /\ exec consenting_world 9
          (StreamBot.open_stream_and_handle_popups main_bot 0 4) []
        = Returned tt ([] ++ evs) 0
     /\ count is_click evs = 1
     /\ click_settle evs = 4%Z)
  /\
  (answered quiet_world [] (calls_before_consent main_bot 0 5) = true /\
   quiet_world ([] ++ calls_before_consent main_bot 0 5)
     (IsElementPresent 0 accept_button) = Some false /\
   exists evs,
     evs = calls_before_consent main_bot 0 5
           ++ [IsElementPresent 0 accept_button]
     /\ exec quiet_world 9
          (StreamBot.open_stream_and_handle_popups main_bot 0 5) []
        = Returned tt ([] ++ evs) 1
     /\ count is_click evs = 0
     /\ click_settle evs = 0%Z).
Proof.
  split; (split; [reflexivity | split; [reflexivity|]]).
  - apply (consent_step_one_click_with_settle consenting_world [] main_bot
             0 4 true 0); reflexivity.
  - apply (consent_step_one_click_with_settle quiet_world [] main_bot
             0 5 false 0); reflexivity.
Defined.

(** ** The sequence of [run] *)

(** C6 (as amended): a [run] that returns is made of the opening of the
    primary page, the player monitor started right where the opening
    returned (no call, hence no pause, between them), a [sleep(1)], the
    liveness monitor, and a final [sleep(1)]. *)
Theorem run_pauses_follow_the_monitors (w : world) (self : StreamBot.t)
  (driver : Driver) (h : trace) (fuel : nat) (tr : trace) (spare : nat) :
  exec w fuel (StreamBot.run self driver) h = Returned tt tr spare ->
  exists h1 h2 h3,
    returns_at w (StreamBot.open_stream_and_handle_popups self driver 4) h h1
    /\ returns_at w (StreamBot.monitor_kick_stream self driver) h1 h2
    /\ w h2 (Sleep driver 1) = Some tt
    /\ returns_at w (StreamBot.monitor_twitch_stream self driver)
         (h2 ++ [Sleep driver 1]) h3
    /\ w h3 (Sleep driver 1) = Some tt
    /\ tr = h3 ++ [Sleep driver 1].
Proof.
  unfold StreamBot.run. rewrite exec_bind.
  destruct (exec w fuel _ h) as [[] h1 s1 | |] eqn:E1; try discriminate.
  rewrite exec_bind.
  destruct (exec w (S s1) _ h1) as [[] h2 s2 | |] eqn:E2; try discriminate.
  rewrite exec_call.
  destruct (w h2 (Sleep driver 1)) as [[]|] eqn:W2; [|discriminate].
  rewrite exec_bind.
  destruct (exec w s2 _ (h2 ++ [Sleep driver 1])) as [[] h3 s3 | |] eqn:E3;
    try discriminate.
  rewrite (exec_perform w _ (Sleep driver 1)).
  destruct (w h3 (Sleep driver 1)) as [[]|] eqn:W3; [|discriminate].
  destruct s3 as [|s3]; [discriminate|]. rewrite exec_ret.
  intros [= <- _].
  exists h1, h2, h3. unfold returns_at.
  split; [exists fuel, tt, s1; exact E1|].
  split; [exists (S s1), tt, s2; exact E2|].
  split; [exact W2|].
  split; [exists s2, tt, (S s3); exact E3|].
  split; [exact W3 | reflexivity].
Qed.

Lemma run_pauses_follow_the_monitors_witness :
  exec quiet_world 12 (StreamBot.run main_bot 0) [] =
    Returned tt
      (calls_before_consent main_bot 0 4 ++
       [IsElementPresent 0 accept_button;
        IsElementVisible 0 player_selector;
        Sleep 0 1;
        liveness_request "brutalles";
        Sleep 0 1]) 0
  /\ exists h1 h2 h3,
    returns_at quiet_world
      (StreamBot.open_stream_and_handle_popups main_bot 0 4) [] h1
    /\ returns_at quiet_world (StreamBot.monitor_kick_stream main_bot 0) h1 h2
    /\ quiet_world h2 (Sleep 0 1) = Some tt
    /\ returns_at quiet_world (StreamBot.monitor_twitch_stream main_bot 0)
         (h2 ++ [Sleep 0 1]) h3
    /\ quiet_world h3 (Sleep 0 1) = Some tt
    /\ calls_before_consent main_bot 0 4 ++
       [IsElementPresent 0 accept_button;
        IsElementVisible 0 player_selector;
        Sleep 0 1;
        liveness_request "brutalles";
        Sleep 0 1] = h3 ++ [Sleep 0 1].
Proof.
  split; [reflexivity|].
  apply (run_pauses_follow_the_monitors quiet_world main_bot 0 [] 12 _ 0).
  reflexivity.
Defined.

(** C6 (as stated) fails: with nothing on the page, the call that follows
    the opening's last call is the player monitor's visibility check, not a
    one-second sleep. *)
Lemma pause_between_open_and_kick_fails :
  ~ pause_between_open_and_kick quiet_world main_bot 0.
Proof.
  intros H.
  destruct (H 12 _ 0 eq_refl) as (h1 & rest & (f1 & [] & s1 & E1) & E).
  assert (exec quiet_world 8
            (StreamBot.open_stream_and_handle_popups main_bot 0 4) [] =
          Returned tt
            (calls_before_consent main_bot 0 4
               ++ [IsElementPresent 0 accept_button]) 0) as E0
    by reflexivity.
  destruct (exec_returned_unique _ _ _ _ _ _ _ _ _ _ _ E1 E0) as [_ ->].
  cbv in E. discriminate E.
Qed.

(** ** Parts that make only routine calls *)

Lemma routine_not_spawn (c : call) :
  routine c = true -> is_spawn c = false /\ is_teardown c = false.
Proof.
  unfold routine. destruct (is_spawn c), (is_teardown c); simpl;
    intros H; try discriminate H; split; reflexivity.
Qed.

Lemma post_click_accept_exact (w : world) (d : Driver) (h : trace) :
  post w (click_accept_if_present d) h
    (fun _ h' =>
       exists present : bool,
         w h (IsElementPresent d accept_button) = Some present /\
         h' = h ++ IsElementPresent d accept_button
                :: (if present then [UcClick d accept_button 4] else [])).
Proof.
  unfold click_accept_if_present.
  apply post_call. intros [|] Hp.
  - apply (post_perform w (UcClick d accept_button 4)). intros [] _.
    exists true. split; [exact Hp|]. rewrite <- app_assoc. reflexivity.
  - apply post_ret. exists false. split; [exact Hp | reflexivity].
Qed.

Lemma halts_click_accept (w : world) (d : Driver) (h : trace) :
  halts_within w (click_accept_if_present d) h 3.
Proof.
  unfold click_accept_if_present.
  apply halts_call. intros [|] _.
  - apply (halts_perform w (UcClick d accept_button 4)).
  - apply (halts_weaken _ _ _ 1); [apply halts_ret | lia].
Qed.

Lemma post_is_twitch_online (w : world) (user : string) (h : trace) :
  post w (StreamStatusChecker.is_twitch_online user) h
    (fun b h' =>
       h' = h ++ [liveness_request user] /\
       option_map (fun resp => str_in "isLiveBroadcast" (text resp))
         (w h (liveness_request user)) = Some b).
Proof.
  intros [|[|fuel]] b h' spare; try discriminate.
  - simpl. destruct (w h _); discriminate.
  - rewrite exec_is_twitch_online.
    destruct (w h (liveness_request user)) as [resp|]; [|discriminate].
    intros [= <- <- _]. split; reflexivity.
Qed.

Lemma always_is_twitch_online (w : world) (user : string) (h : trace)
  (P : trace -> Prop) :
  P h -> P (h ++ [liveness_request user]) ->
  always w (StreamStatusChecker.is_twitch_online user) h P.
Proof.
  intros HP HPc. unfold StreamStatusChecker.is_twitch_online. cbv zeta.
  apply always_call; [exact HP | exact HPc |].
  intros resp _. apply always_ret. exact HPc.
Qed.

Lemma halts_is_twitch_online (w : world) (user : string) (h : trace) :
  halts_within w (StreamStatusChecker.is_twitch_online user) h 2.
Proof.
  unfold StreamStatusChecker.is_twitch_online. cbv zeta.
  apply halts_call. intros resp _. apply halts_ret.
Qed.

Lemma holds_is_twitch_online (w : world) (user : string) (h : trace)
  (P : trace -> Prop) :
  P h -> P (h ++ [liveness_request user]) ->
  holds w (StreamStatusChecker.is_twitch_online user) h P
    (fun b h' =>
       h' = h ++ [liveness_request user] /\
       option_map (fun resp => str_in "isLiveBroadcast" (text resp))
         (w h (liveness_request user)) = Some b).
Proof.
  intros HP HPc. split;
    [apply always_is_twitch_online; assumption | apply post_is_twitch_online].
Qed.

(** One call allowed by [C], in a goal about [holds]. *)
Ltac step_call_by inj C H :=
  match goal with
  | |- holds _ (ITree.bind (perform ?c) _) ?h0 _ _ =>
      let H' := fresh in
      pose proof (C h0 c eq_refl H) as H';
      apply holds_call; [inj; exact H | inj; exact H' | intros ? _];
      clear H; rename H' into H
  end.

Ltac step_call C H := step_call_by ltac:(idtac) C H.

Ltac last_call C H :=
  match goal with
  | |- holds _ (perform ?c) ?h0 _ _ =>
      let H' := fresh in
      pose proof (C h0 c eq_refl H) as H';
      apply (holds_perform _ c); [exact H | exact H' | intros ? _; exact H']
  end.

Section Routine.

Variables (allowed : call -> bool) (w : world) (P : trace -> Prop).
Hypothesis closed : closed_under allowed P.

Lemma holds_click_accept (d : Driver) (h0 : trace) :
  allowed (IsElementPresent d accept_button) = true ->
  allowed (UcClick d accept_button 4) = true ->
  P h0 ->
  holds w (click_accept_if_present d) h0 P (fun _ h' => P h').
Proof.
  intros Hi Hc H. unfold click_accept_if_present.
  pose proof (closed _ _ Hi H) as H1.
  apply holds_call; [exact H | exact H1 |]. intros [|] _.
  - pose proof (closed _ _ Hc H1) as H2.
    apply (holds_perform _ (UcClick d accept_button 4));
      [exact H1 | exact H2 | intros _ _; exact H2].
  - apply holds_ret; exact H1.
Qed.

Hypothesis routine_allowed : forall c, routine c = true -> allowed c = true.

Lemma closed_routine : closed_under routine P.
Proof. intros h c Hc. apply closed, routine_allowed, Hc. Qed.

Lemma holds_handle_captcha (self : CaptchaHandler.t) (h0 : trace) :
  P h0 ->
  holds w (CaptchaHandler.handle_captcha self) h0 P (fun _ h' => P h').
Proof.
  intros H. unfold CaptchaHandler.handle_captcha.
  do 3 step_call closed_routine H.
  last_call closed_routine H.
Qed.

Lemma holds_open_stream (self : StreamBot.t) (d : Driver)
  (reconnect_time : Z) (h0 : trace) :
  P h0 ->
  holds w (StreamBot.open_stream_and_handle_popups self d reconnect_time)
    h0 P (fun _ h' => P h').
Proof.
  intros H. unfold StreamBot.open_stream_and_handle_popups. cbv zeta.
  do 2 step_call closed_routine H.
  apply holds_bind.
  eapply holds_consequence;
    [apply holds_handle_captcha, H | auto |].
  intros [] h1 H1. cbv beta.
  apply holds_click_accept;
    [apply routine_allowed; reflexivity
    | apply routine_allowed; reflexivity | exact H1].
Qed.

Lemma holds_wait (driver : Driver) (h0 : trace) :
  P h0 ->
  holds w (wait_while_player_visible driver) h0 P
    (fun _ h' => P h').
Proof.
  intros H. unfold wait_while_player_visible.
  apply (holds_while w _ _ P); [|exact H].
  clear h0 H. intros h0 H.
  pose proof (closed_routine _ (IsElementVisible driver player_selector)
                eq_refl H) as H1.
  apply (holds_perform _ (IsElementVisible driver player_selector));
    [exact H | exact H1 |].
  intros [|] _; [|split; exact H1].
  last_call closed_routine H1.
Qed.

End Routine.

(** ** Counting sessions created and destroyed *)

Lemma count_app (f : call -> bool) (l1 l2 : trace) :
  count f (l1 ++ l2) = count f l1 + count f l2.
Proof. unfold count. rewrite filter_app, length_app. reflexivity. Qed.

Lemma grown_refl (h : trace) : grown h 0 0 h.
Proof. exists []. rewrite app_nil_r. repeat split. Qed.

Lemma grown_step (c : call) (h : trace) (a b : nat) (h0 : trace) :
  grown h a b h0 ->
  grown h (a + Nat.b2n (is_spawn c)) (b + Nat.b2n (is_teardown c)) (h0 ++ [c]).
Proof.
  intros (evs & -> & Ha & Hb). exists (evs ++ [c]).
  rewrite app_assoc. split; [reflexivity|].
  unfold spawned, torn_down in *. rewrite !count_app, Ha, Hb.
  unfold count. simpl.
  destruct (is_spawn c), (is_teardown c); split; reflexivity.
Qed.

(** One call that neither creates nor destroys a session. *)
Ltac tick G :=
  apply post_call; intros ? _;
  match goal with
  | |- post _ _ (_ ++ [?c]) _ =>
      apply (grown_step c) in G;
      cbn [is_spawn is_teardown Nat.b2n] in G;
      rewrite ?Nat.add_0_r in G
  end.

Lemma grown_closed (h : trace) (a b : nat) :
  closed_under routine (grown h a b).
Proof.
  intros h0 c Hc G. apply routine_not_spawn in Hc. destruct Hc as [Hs Ht].
  apply (grown_step c) in G. rewrite Hs, Ht, !Nat.add_0_r in G. exact G.
Qed.

Lemma grown_teardown_last (h : trace) (driver : Driver) (h0 : trace) :
  grown h 1 0 h0 ->
  exists evs,
    h0 ++ [QuitExtraDriver driver] = h ++ evs /\
    spawned evs = 1 /\ torn_down evs = 1 /\
    exists pre, evs = pre ++ [QuitExtraDriver driver].
Proof.
  intros (pre & -> & Hs & Ht). exists (pre ++ [QuitExtraDriver driver]).
  rewrite app_assoc. split; [reflexivity|].
  unfold spawned, torn_down in *. rewrite !count_app, Hs, Ht.
  repeat split. exists pre. reflexivity.
Qed.

(** C2: an invocation of either monitor that finds its condition true at
    entry and returns has, among the calls it made, exactly one that creates
    a secondary session and exactly one that destroys it, and the destroying
    call is its last call. *)
Theorem monitor_spawn_teardown_balanced (p : platform) (w : world)
  (h : trace) (self : StreamBot.t) (driver : Driver) (fuel : nat)
  (tr : trace) (spare : nat) :
  presence_at_entry p w h self driver = Some true ->
  exec w fuel (monitor p self driver) h = Returned tt tr spare ->
  exists evs,
    tr = h ++ evs /\ spawned evs = 1 /\ torn_down evs = 1 /\
    exists pre, evs = pre ++ [QuitExtraDriver driver].
Proof.
  intros Hp E.
  enough (post w (monitor p self driver) h (fun _ tr =>
    exists evs,
      tr = h ++ evs /\ spawned evs = 1 /\ torn_down evs = 1 /\
      exists pre, evs = pre ++ [QuitExtraDriver driver])) as P
    by exact (P _ _ _ _ E).
  clear E. pose proof (grown_refl h) as G.
  destruct p; unfold presence_at_entry in Hp; unfold monitor.
  - unfold StreamBot.monitor_kick_stream.
    apply post_call. intros visible Hv. rewrite Hp in Hv.
    injection Hv as <-.
    apply (grown_step (IsElementVisible driver player_selector)) in G.
    apply post_call. intros new_driver _.
    apply (grown_step (GetNewDriver driver true)) in G.
    cbn [is_spawn is_teardown Nat.b2n Nat.add] in G.
    apply post_bind.
    eapply post_weaken;
      [apply (proj2 (holds_open_stream routine w _ (grown_closed h 1 0)
                       (fun c H => H) self new_driver 5 _ G))|].
    clear G. intros [] h1 G. tick G.
    apply post_bind.
    eapply post_weaken;
      [apply (proj2 (holds_click_accept routine w _ (grown_closed h 1 0)
                       new_driver _ eq_refl eq_refl G))|].
    clear G. intros [] h2 G.
    apply post_bind.
    eapply post_weaken;
      [apply (proj2 (holds_wait routine w _ (grown_closed h 1 0)
                       (fun c H => H) driver _ G))|].
    clear G. intros [] h3 G.
    apply (post_perform w (QuitExtraDriver driver)). intros [] _.
    apply grown_teardown_last, G.
  - unfold StreamBot.monitor_twitch_stream.
    apply post_bind.
    eapply post_weaken; [apply post_is_twitch_online|].
    intros online h0 [-> Ho]. rewrite Hp in Ho. injection Ho as <-.
    cbv zeta.
    apply (grown_step
             (liveness_request (username (StreamBot.streamer self)))) in G.
    cbn [liveness_request is_spawn is_teardown Nat.b2n Nat.add] in G.
    tick G.
    apply post_bind.
    eapply post_weaken;
      [apply (proj2 (holds_click_accept routine w _ (grown_closed h 0 0)
                       driver _ eq_refl eq_refl G))|].
    clear G. intros [] h1 G.
    apply post_call. intros new_driver _.
    apply (grown_step (GetNewDriver driver true)) in G.
    cbn [is_spawn is_teardown Nat.b2n Nat.add] in G.
    tick G. tick G.
    apply post_bind.
    eapply post_weaken;
      [apply (proj2 (holds_click_accept routine w _ (grown_closed h 1 0)
                       new_driver _ eq_refl eq_refl G))|].
    clear G. intros [] h2 G.
    apply (post_perform w (QuitExtraDriver driver)). intros [] _.
    apply grown_teardown_last, G.
Qed.

Lemma monitor_spawn_teardown_balanced_witness :
  (presence_at_entry Kick live_world [] main_bot 0 = Some true /\
   exec live_world 22 (monitor Kick main_bot 0) [] =
     Returned tt
       ([IsElementVisible 0 player_selector; GetNewDriver 0 true]
        ++ calls_before_consent main_bot 1 5
        ++ [IsElementPresent 1 accept_button; UcClick 1 accept_button 4;
            Sleep 0 10;
            IsElementPresent 1 accept_button; UcClick 1 accept_button 4]
        ++ laps 0 2
        ++ [IsElementVisible 0 player_selector; QuitExtraDriver 0]) 0 /\
   exists evs,
     [IsElementVisible 0 player_selector; GetNewDriver 0 true]
     ++ calls_before_consent main_bot 1 5
     ++ [IsElementPresent 1 accept_button; UcClick 1 accept_button 4;
         Sleep 0 10;
         IsElementPresent 1 accept_button; UcClick 1 accept_button 4]
     ++ laps 0 2
     ++ [IsElementVisible 0 player_selector; QuitExtraDriver 0] = [] ++ evs /\
     spawned evs = 1 /\ torn_down evs = 1 /\
     exists pre, evs = pre ++ [QuitExtraDriver 0])
  /\
  (presence_at_entry Twitch live_world [] main_bot 0 = Some true /\
   exec live_world 11 (monitor Twitch main_bot 0) [] =
     Returned tt
       [liveness_request "brutalles";
        UcOpenWithReconnect 0 "https://www.twitch.tv/brutalles" 5;
        IsElementPresent 0 accept_button; UcClick 0 accept_button 4;
        GetNewDriver 0 true;
        UcOpenWithReconnect 1 "https://www.twitch.tv/brutalles" 5;
        Sleep 0 10;
        IsElementPresent 1 accept_button; UcClick 1 accept_button 4;
        QuitExtraDriver 0] 0 /\
   exists evs,
     [liveness_request "brutalles";
      UcOpenWithReconnect 0 "https://www.twitch.tv/brutalles" 5;
      IsElementPresent 0 accept_button; UcClick 0 accept_button 4;
      GetNewDriver 0 true;
      UcOpenWithReconnect 1 "https://www.twitch.tv/brutalles" 5;
      Sleep 0 10;
      IsElementPresent 1 accept_button; UcClick 1 accept_button 4;
      QuitExtraDriver 0] = [] ++ evs /\
     spawned evs = 1 /\ torn_down evs = 1 /\
     exists pre, evs = pre ++ [QuitExtraDriver 0]).
Proof.
  split; (split; [reflexivity | split; [reflexivity|]]).
  - apply (monitor_spawn_teardown_balanced Kick live_world [] main_bot 0
             22 _ 0); reflexivity.
  - apply (monitor_spawn_teardown_balanced Twitch live_world [] main_bot 0
             11 _ 0); reflexivity.
Defined.

(** ** The waiting loop *)

Lemma exec_wait_lap (w : world) (driver : Driver) (h : trace) (fuel : nat) :
  w h (IsElementVisible driver player_selector) = Some true ->
  w (h ++ [IsElementVisible driver player_selector]) (Sleep driver 10)
    = Some tt ->
  exec w (3 + fuel) (wait_while_player_visible driver) h =
  exec w fuel (wait_while_player_visible driver)
    (h ++ [IsElementVisible driver player_selector; Sleep driver 10]).
Proof.
  intros Hv Hs. unfold wait_while_player_visible.
  rewrite exec_while. simpl plus.
  rewrite (exec_call w _ (IsElementVisible driver player_selector)), Hv.
  rewrite (exec_call w _ (Sleep driver 10)), Hs, exec_tau, <- app_assoc.
  reflexivity.
Qed.

Lemma exec_wait_exit (w : world) (driver : Driver) (h : trace) (fuel : nat) :
  w h (IsElementVisible driver player_selector) = Some false ->
  exec w (2 + fuel) (wait_while_player_visible driver) h =
  Returned tt (h ++ [IsElementVisible driver player_selector]) fuel.
Proof.
  intros Hv. unfold wait_while_player_visible.
  rewrite exec_while. simpl plus.
  rewrite (exec_call w _ (IsElementVisible driver player_selector)), Hv.
  reflexivity.
Qed.

Lemma waits_laps (driver : Driver) (n : nat) :
  waits (laps driver n) = n /\ polls (laps driver n) = n.
Proof.
  unfold waits, polls.
  induction n as [|n [IHw IHp]]; [split; reflexivity|].
  simpl laps. rewrite !count_app, IHw, IHp. unfold count. simpl.
  split; lia.
Qed.

Section WaitLoop.

Variables (w : world) (driver : Driver) (h : trace) (pred : nat -> bool).

(** The [k]-th evaluation of the loop condition answers [pred k], and the
    sleep after an evaluation that held returns. *)
Hypothesis Hcheck : forall k,
  w (h ++ laps driver k) (IsElementVisible driver player_selector)
  = Some (pred k).
Hypothesis Hsleep : forall k, pred k = true ->
  w (h ++ laps driver k ++ [IsElementVisible driver player_selector])
    (Sleep driver 10) = Some tt.

Lemma exec_wait_from_lap (n : nat) :
  first_false pred n ->
  forall d j fuel, j + d = n ->
    exec w (3 * d + 2 + fuel) (wait_while_player_visible driver)
      (h ++ laps driver j) =
    Returned tt
      (h ++ laps driver n ++ [IsElementVisible driver player_selector])
      fuel.
Proof.
  intros [Htrue Hfalse]. induction d as [|d IH]; intros j fuel Hj.
  - rewrite Nat.add_0_r in Hj. subst j.
    change (3 * 0 + 2 + fuel) with (2 + fuel).
    rewrite exec_wait_exit, <- app_assoc; [reflexivity|].
    rewrite Hcheck. f_equal. exact Hfalse.
  - assert (pred j = true) as Hpj by (apply Htrue; lia).
    replace (3 * S d + 2 + fuel) with (3 + (3 * d + 2 + fuel)) by lia.
    rewrite exec_wait_lap.
    + rewrite <- app_assoc. apply (IH (S j)). lia.
    + rewrite Hcheck, Hpj. reflexivity.
    + rewrite <- app_assoc. apply Hsleep, Hpj.
Qed.

Lemma exec_wait_never_ends :
  (forall k, pred k = true) ->
  forall fuel j, exists tr,
    exec w fuel (wait_while_player_visible driver)
      (h ++ laps driver j) = OutOfFuel tr.
Proof.
  intros Hall fuel.
  induction fuel as [fuel IH] using lt_wf_ind. intros j.
  assert (w (h ++ laps driver j) (IsElementVisible driver player_selector)
          = Some true) as Hv by (rewrite Hcheck, Hall; reflexivity).
  assert (w ((h ++ laps driver j)
               ++ [IsElementVisible driver player_selector])
            (Sleep driver 10) = Some tt) as Hs
    by (rewrite <- app_assoc; apply Hsleep, Hall).
  destruct fuel as [|[|[|fuel]]].
  - eexists. reflexivity.
  - unfold wait_while_player_visible.
    rewrite exec_while.
    rewrite (exec_call w _ (IsElementVisible driver player_selector)), Hv.
    eexists. reflexivity.
  - unfold wait_while_player_visible.
    rewrite exec_while.
    rewrite (exec_call w _ (IsElementVisible driver player_selector)), Hv.
    rewrite (exec_call w _ (Sleep driver 10)), Hs.
    eexists. reflexivity.
  - change (S (S (S fuel))) with (3 + fuel).
    rewrite (exec_wait_lap _ _ _ _ Hv Hs), <- app_assoc.
    apply (IH fuel (Nat.lt_lt_succ_r _ _ (Nat.lt_lt_succ_r _ _
             (Nat.lt_succ_diag_r fuel))) (S j)).
Qed.

End WaitLoop.

(** The loop on its own: let the [k]-th evaluation of its condition answer
    [pred k] and the sleeps return. If [n] is the first index where [pred]
    is false, the loop returns after exactly [n] rounds of check-then-sleep
    and one last check; if [pred] is true everywhere it never returns. *)
Lemma wait_loop_alone (w : world) (driver : Driver)
  (h : trace) (pred : nat -> bool) :
  (forall k,
     w (h ++ laps driver k) (IsElementVisible driver player_selector)
     = Some (pred k)) ->
  (forall k, pred k = true ->
     w (h ++ laps driver k ++ [IsElementVisible driver player_selector])
       (Sleep driver 10) = Some tt) ->
  (forall n, first_false pred n ->
     forall fuel,
       exec w (3 * n + 2 + fuel)
         (wait_while_player_visible driver) h =
       Returned tt
         (h ++ laps driver n ++ [IsElementVisible driver player_selector])
         fuel
       /\ waits (laps driver n ++ [IsElementVisible driver player_selector])
          = n
       /\ polls (laps driver n ++ [IsElementVisible driver player_selector])
          = S n)
  /\ ((forall k, pred k = true) ->
      forall fuel, exists tr,
        exec w fuel (wait_while_player_visible driver) h
        = OutOfFuel tr).
Proof.
  intros Hcheck Hsleep. split.
  - intros n Hn fuel. split.
    + pose proof (exec_wait_from_lap w driver h pred Hcheck Hsleep n Hn
                    n 0 fuel eq_refl) as E.
      simpl laps in E. rewrite app_nil_r in E. exact E.
    + unfold waits, polls. rewrite !count_app.
      destruct (waits_laps driver n) as [Hw Hp].
      unfold waits, polls in Hw, Hp. rewrite Hw, Hp.
      unfold count. simpl. split; lia.
  - intros Hall fuel.
    pose proof (exec_wait_never_ends w driver h pred Hcheck Hsleep Hall
                  fuel 0) as E.
    simpl laps in E. rewrite app_nil_r in E. exact E.
Qed.

(** ** The waiting loop inside [monitor_kick_stream] *)

Lemma replies_along_app (w : world) (a b : list reply) :
  forall h,
    replies_along w h (a ++ b) <->
    replies_along w h a /\ replies_along w (h ++ List.map call_of a) b.
Proof.
  induction a as [|r a IH]; intros h; simpl.
  - rewrite app_nil_r. tauto.
  - rewrite IH, <- app_assoc. simpl. unfold call_of. tauto.
Qed.

Lemma opening_replies_answered (w : world) (h : trace) (self : StreamBot.t)
  (d : Driver) (reconnect_time : Z) :
  replies_along w h (opening_replies self d reconnect_time) ->
  answered w h (calls_before_consent self d reconnect_time) = true.
Proof.
  unfold opening_replies, calls_before_consent. cbn.
  intros (H1 & H2 & H3 & H4 & H5 & H6 & _).
  rewrite H1, H2, H3, H4, H5, H6. reflexivity.
Qed.

(** The opening followed by [k], when the opening's calls return. *)
Lemma exec_open_stream_then {R : Type} (w : world) (h : trace)
  (self : StreamBot.t) (d : Driver) (reconnect_time : Z) (p : bool)
  (k : unit -> itree botE R) (fuel : nat) :
  replies_along w h (opening_replies self d reconnect_time) ->
  replies_along w (h ++ calls_before_consent self d reconnect_time)
    (accept_replies d p) ->
  exec w (9 + Nat.b2n p + fuel)
    (ITree.bind
       (StreamBot.open_stream_and_handle_popups self d reconnect_time) k) h
  = exec w (2 + fuel) (k tt)
      (h ++ calls_before_consent self d reconnect_time
         ++ List.map call_of (accept_replies d p)).
Proof.
  intros Ho Ha. apply opening_replies_answered in Ho.
  rewrite exec_bind.
  destruct p; unfold accept_replies in Ha;
    cbn [replies_along projT1 projT2 answer] in Ha.
  - destruct Ha as (Hp & Hc & _).
    change (9 + Nat.b2n true + fuel) with (9 + (1 + fuel)).
    rewrite (exec_open_stream w h self d reconnect_time true _ Ho Hp).
    rewrite <- app_assoc in Hc. rewrite Hc. reflexivity.
  - destruct Ha as (Hp & _).
    change (9 + Nat.b2n false + fuel) with (9 + fuel).
    rewrite (exec_open_stream w h self d reconnect_time false _ Ho Hp).
    reflexivity.
Qed.

(** The consent step followed by [k], when its calls return. *)
Lemma exec_click_accept_then {R : Type} (w : world) (h : trace)
  (d : Driver) (p : bool) (k : unit -> itree botE R) (fuel : nat) :
  replies_along w h (accept_replies d p) ->
  exec w (3 + Nat.b2n p + fuel)
    (ITree.bind (click_accept_if_present d) k) h
  = exec w (2 + fuel) (k tt) (h ++ List.map call_of (accept_replies d p)).
Proof.
  intros Ha. rewrite exec_bind.
  destruct p; unfold accept_replies in Ha;
    cbn [replies_along projT1 projT2 answer] in Ha.
  - destruct Ha as (Hp & Hc & _).
    change (3 + Nat.b2n true + fuel) with (S (S (S (1 + fuel)))).
    rewrite exec_click_accept_if_present, Hp, Hc. reflexivity.
  - destruct Ha as (Hp & _).
    change (3 + Nat.b2n false + fuel) with (S (S (S fuel))).
    rewrite exec_click_accept_if_present, Hp. reflexivity.
Qed.

(** From its entry to its loop: with the replies of [kick_entry], the
    monitor comes to its [while] at [kick_loop_entry], and what it does
    from there is what the loop and the teardown do. *)
Lemma exec_kick_to_loop (w : world) (self : StreamBot.t)
  (driver new_driver : Driver) (p1 p2 : bool) (h : trace) (fuel : nat) :
  replies_along w h (kick_entry self driver new_driver p1 p2) ->
  exec w (13 + Nat.b2n p1 + Nat.b2n p2 + fuel)
    (StreamBot.monitor_kick_stream self driver) h
  = exec w (2 + fuel)
      (wait_while_player_visible driver ;; perform (QuitExtraDriver driver))
      (kick_loop_entry h self driver new_driver p1 p2).
Proof.
  unfold kick_loop_entry, kick_entry. intros Hr.
  change ([answer (IsElementVisible driver player_selector) true;
           answer (GetNewDriver driver true) new_driver]
          ++ opening_replies self new_driver 5
          ++ accept_replies new_driver p1
          ++ [answer (Sleep driver 10) tt]
          ++ accept_replies new_driver p2)
    with (answer (IsElementVisible driver player_selector) true
          :: answer (GetNewDriver driver true) new_driver
          :: (opening_replies self new_driver 5
              ++ accept_replies new_driver p1
              ++ answer (Sleep driver 10) tt
                 :: accept_replies new_driver p2)) in *.
  cbn [replies_along projT1 projT2 answer] in Hr.
  destruct Hr as (Hv & Hs & Hr).
  apply replies_along_app in Hr. destruct Hr as (Ho & Hr).
  apply replies_along_app in Hr. destruct Hr as (H1 & Hr).
  cbn [replies_along projT1 projT2 answer] in Hr.
  destruct Hr as (H10 & H2).
  change (List.map call_of (opening_replies self new_driver 5))
    with (calls_before_consent self new_driver 5) in *.
  unfold StreamBot.monitor_kick_stream.
  replace (13 + Nat.b2n p1 + Nat.b2n p2 + fuel)
    with (S (S (9 + Nat.b2n p1 + (2 + Nat.b2n p2 + fuel)))) by lia.
  rewrite exec_call, Hv, exec_call, Hs.
  rewrite (exec_open_stream_then w _ self new_driver 5 p1 _ _ Ho H1).
  replace (2 + (2 + Nat.b2n p2 + fuel))
    with (S (3 + Nat.b2n p2 + fuel)) by lia.
  rewrite <- !app_assoc in H10. rewrite <- !app_assoc.
  rewrite exec_call, H10.
  rewrite <- !app_assoc in H2. rewrite <- !app_assoc.
  rewrite (exec_click_accept_then w _ new_driver p2 _ _ H2).
  cbn [List.map call_of projT1 answer]. rewrite !List.map_app.
  change (List.map call_of (opening_replies self new_driver 5))
    with (calls_before_consent self new_driver 5).
  repeat rewrite <- app_assoc. cbn [app]. reflexivity.
Qed.

(** A run that is still going with [c] or more units of fuel, whatever the
    excess, is still going with any fuel. *)
Lemma never_ends_from {R : Type} (w : world) (t : itree botE R) (h : trace)
  (c : nat) :
  (forall fuel, exists tr, exec w (c + fuel) t h = OutOfFuel tr) ->
  forall fuel, exists tr, exec w fuel t h = OutOfFuel tr.
Proof.
  intros H fuel. destruct (H fuel) as [tr E].
  pose proof (exec_more_fuel w c fuel t h) as M.
  rewrite (Nat.add_comm fuel c), E in M.
  destruct (exec w fuel t h) as [r h' s | h' | h'];
    [discriminate M | discriminate M | exists h'; reflexivity].
Qed.

(** C3: take [monitor_kick_stream] from its entry to its waiting loop (the
    player is visible, the calls before the loop return), let the [k]-th
    evaluation of the loop condition answer [pred k], and let the sleeps of
    the loop return. If [n] is the first index where [pred] is false, the
    monitor makes exactly [n] rounds of check and 10-second sleep, leaves
    the loop at the check that answers false, and calls
    [quit_extra_driver]: for true, true, true, false that is 3 sleeps. If
    [pred] is true everywhere the monitor is still running whatever the
    fuel: the loop has no bound on its rounds. *)
Theorem kick_monitor_waits_until_first_false (w : world)
  (self : StreamBot.t) (driver new_driver : Driver) (p1 p2 : bool)
  (h : trace) (pred : nat -> bool) :
  replies_along w h (kick_entry self driver new_driver p1 p2) ->
  (forall k,
     w (kick_loop_entry h self driver new_driver p1 p2 ++ laps driver k)
       (IsElementVisible driver player_selector) = Some (pred k)) ->
  (forall k, pred k = true ->
     w (kick_loop_entry h self driver new_driver p1 p2 ++ laps driver k
          ++ [IsElementVisible driver player_selector])
       (Sleep driver 10) = Some tt) ->
  (forall n, first_false pred n ->
     (forall fuel,
        exec w (14 + Nat.b2n p1 + Nat.b2n p2 + 3 * n + fuel)
          (StreamBot.monitor_kick_stream self driver) h =
        match w (kick_loop_entry h self driver new_driver p1 p2
                   ++ laps driver n
                   ++ [IsElementVisible driver player_selector])
                (QuitExtraDriver driver) with
        | Some _ =>
            Returned tt
              (kick_loop_entry h self driver new_driver p1 p2
                 ++ laps driver n
                 ++ [IsElementVisible driver player_selector;
                     QuitExtraDriver driver]) fuel
        | None =>
            Raised
              (kick_loop_entry h self driver new_driver p1 p2
                 ++ laps driver n
                 ++ [IsElementVisible driver player_selector;
                     QuitExtraDriver driver])
        end)
     /\ waits (laps driver n ++ [IsElementVisible driver player_selector])
        = n
     /\ polls (laps driver n ++ [IsElementVisible driver player_selector])
        = S n)
  /\ ((forall k, pred k = true) ->
      forall fuel, exists tr,
        exec w fuel (StreamBot.monitor_kick_stream self driver) h
        = OutOfFuel tr).
Proof.
  intros Hr Hcheck Hsleep. split.
  - intros n Hn. split.
    + intros fuel.
      replace (14 + Nat.b2n p1 + Nat.b2n p2 + 3 * n + fuel)
        with (13 + Nat.b2n p1 + Nat.b2n p2 + (3 * n + (1 + fuel))) by lia.
      rewrite (exec_kick_to_loop w self driver new_driver p1 p2 h _ Hr).
      rewrite exec_bind.
      replace (2 + (3 * n + (1 + fuel))) with (3 * n + 2 + (1 + fuel))
        by lia.
      pose proof (exec_wait_from_lap w driver _ pred Hcheck Hsleep n Hn
                    n 0 (1 + fuel) eq_refl) as E.
      simpl laps in E. rewrite app_nil_r in E. rewrite E.
      rewrite (exec_perform w _ (QuitExtraDriver driver)).
      repeat rewrite <- app_assoc.
      destruct (w _ (QuitExtraDriver driver)) as [[]|]; reflexivity.
    + unfold waits, polls. rewrite !count_app.
      destruct (waits_laps driver n) as [Hw Hp].
      unfold waits, polls in Hw, Hp. rewrite Hw, Hp.
      unfold count. simpl. split; lia.
  - intros Hall.
    apply (never_ends_from w _ h (13 + Nat.b2n p1 + Nat.b2n p2)).
    intros fuel.
    rewrite (exec_kick_to_loop w self driver new_driver p1 p2 h _ Hr).
    rewrite exec_bind.
    pose proof (exec_wait_never_ends w driver _ pred Hcheck Hsleep Hall
                  (2 + fuel) 0) as [tr E].
    simpl laps in E. rewrite app_nil_r in E. rewrite E.
    exists tr. reflexivity.
Qed.

Lemma thrice_waiting_checks (k : nat) :
  thrice_waiting_world
    (kick_loop_entry [] main_bot 0 1 false false ++ laps 0 k)
    (IsElementVisible 0 player_selector)
  = Some (nth k [true; true; true; false] false).
Proof.
  unfold thrice_waiting_world, scripted_world.
  change (polls (kick_loop_entry [] main_bot 0 1 false false ++ laps 0 k))
    with (count is_poll
            (kick_loop_entry [] main_bot 0 1 false false ++ laps 0 k)).
  rewrite count_app.
  destruct (waits_laps 0 k) as [_ Hp]. unfold polls in Hp. rewrite Hp.
  reflexivity.
Qed.

Lemma kick_monitor_waits_until_first_false_witness :
  (replies_along thrice_waiting_world []
     (kick_entry main_bot 0 1 false false)
   /\ first_false (fun k => nth k [true; true; true; false] false) 3
   /\ exec thrice_waiting_world 23 (StreamBot.monitor_kick_stream main_bot 0)
        []
      = Returned tt
          (kick_loop_entry [] main_bot 0 1 false false
             ++ laps 0 3
             ++ [IsElementVisible 0 player_selector; QuitExtraDriver 0]) 0
   /\ waits (laps 0 3 ++ [IsElementVisible 0 player_selector]) = 3
   /\ polls (laps 0 3 ++ [IsElementVisible 0 player_selector]) = 4)
  /\
  (replies_along endless_world [] (kick_entry main_bot 0 1 false false)
   /\ forall fuel, exists tr,
        exec endless_world fuel (StreamBot.monitor_kick_stream main_bot 0) []
        = OutOfFuel tr).
Proof.
  assert (first_false (fun k => nth k [true; true; true; false] false) 3)
    as Hff.
  { split; [|reflexivity].
    intros [|[|[|k]]] Hk; try reflexivity. lia. }
  assert (replies_along thrice_waiting_world []
            (kick_entry main_bot 0 1 false false)) as R1
    by (cbn; repeat split).
  assert (replies_along endless_world []
            (kick_entry main_bot 0 1 false false)) as R2
    by (cbn; repeat split).
  split.
  - split; [exact R1|]. split; [exact Hff|].
    destruct (proj1 (kick_monitor_waits_until_first_false
                       thrice_waiting_world main_bot 0 1 false false []
                       (fun k => nth k [true; true; true; false] false)
                       R1 thrice_waiting_checks (fun k _ => eq_refl))
                3 Hff) as (E & Hw & Hp).
    split; [exact (E 0) | split; [exact Hw | exact Hp]].
  - split; [exact R2|].
    apply (proj2 (kick_monitor_waits_until_first_false
                    endless_world main_bot 0 1 false false []
                    (fun _ => true)
                    R2 (fun k => eq_refl) (fun k _ => eq_refl))).
    intros k. reflexivity.
Defined.

(** ** Traces made of allowed calls *)


Lemma only_refl (allowed : call -> bool) (h : trace) : only allowed h h.
Proof. exists []. rewrite app_nil_r. split; reflexivity. Qed.

Lemma only_step (allowed : call -> bool) (c : call) (h h0 : trace) :
  allowed c = true -> only allowed h h0 -> only allowed h (h0 ++ [c]).
Proof.
  intros Hc (evs & -> & Hall). exists (evs ++ [c]).
  rewrite app_assoc. split; [reflexivity|].
  rewrite forallb_app, Hall. simpl. rewrite Hc. reflexivity.
Qed.

Lemma only_count_zero (allowed f : call -> bool) (evs : trace) :
  (forall c, allowed c = true -> f c = false) ->
  forallb allowed evs = true -> count f evs = 0.
Proof.
  intros Hf. unfold count.
  induction evs as [|c evs IH]; simpl; [reflexivity|].
  intros H. apply andb_prop in H. destruct H as [Hc Hevs].
  rewrite (Hf c Hc). apply IH, Hevs.
Qed.

(** ** The liveness monitor has no waiting phase *)

Lemma only_closed (allowed : call -> bool) (h : trace) :
  closed_under allowed (only allowed h).
Proof. intros h0 c Hc F. apply only_step; assumption. Qed.

Lemma holds_monitor_twitch_only (w : world) (self : StreamBot.t)
  (driver : Driver) (h : trace) :
  holds w (StreamBot.monitor_twitch_stream self driver) h
    (only twitch_monitor_call h) (fun _ h' => only twitch_monitor_call h h').
Proof.
  unfold StreamBot.monitor_twitch_stream.
  pose proof (only_closed twitch_monitor_call h) as C.
  pose proof (only_refl twitch_monitor_call h) as F.
  pose proof (C _ (liveness_request (username (StreamBot.streamer self)))
                eq_refl F) as F1.
  apply holds_bind.
  eapply holds_consequence;
    [apply holds_is_twitch_online; [exact F | exact F1] | auto |].
  clear F. intros [|] h0 [-> _]; [|apply holds_ret; exact F1]. cbv zeta.
  step_call C F1.
  apply holds_bind.
  eapply holds_consequence;
    [apply (holds_click_accept twitch_monitor_call w _ C driver _
              eq_refl eq_refl F1) | auto |].
  clear F1. intros [] h1 F. cbv beta.
  do 3 step_call C F.
  apply holds_bind.
  eapply holds_consequence;
    [apply (holds_click_accept twitch_monitor_call w _ C _ _
              eq_refl eq_refl F) | auto |].
  clear F. intros [] h2 F. cbv beta.
  last_call C F.
Qed.

Lemma twitch_monitor_call_not_poll (c : call) :
  twitch_monitor_call c = true -> is_poll c = false.
Proof. destruct c; simpl; intros H; try reflexivity; discriminate H. Qed.

Lemma twitch_monitor_call_not_captcha (c : call) :
  twitch_monitor_call c = true -> is_captcha c = false.
Proof. destruct c; simpl; intros H; try reflexivity; discriminate H. Qed.

Lemma twitch_monitor_call_not_settle (c : call) :
  twitch_monitor_call c = true -> is_settle c = false.
Proof.
  destruct c; simpl; intros H; try reflexivity.
  apply Z.eqb_eq in H. subst seconds. reflexivity.
Qed.

Lemma halts_monitor_twitch (w : world) (self : StreamBot.t)
  (driver : Driver) (h : trace) :
  halts_within w (StreamBot.monitor_twitch_stream self driver) h 14.
Proof.
  unfold StreamBot.monitor_twitch_stream.
  apply (halts_bind w _ _ h 2 12); [apply halts_is_twitch_online|].
  intros fuel [|] h0 spare _;
    [|apply (halts_weaken _ _ _ 1); [apply halts_ret | lia]].
  cbv zeta. apply halts_call. intros [] _.
  apply (halts_bind w _ _ _ 3 8); [apply halts_click_accept|].
  intros fuel1 [] h1 spare1 _.
  apply halts_call. intros new_driver _.
  apply halts_call. intros [] _.
  apply halts_call. intros [] _.
  apply (halts_bind w _ _ _ 3 2); [apply halts_click_accept|].
  intros fuel2 [] h2 spare2 _.
  apply (halts_perform w (QuitExtraDriver driver)).
Qed.

(** C8: when the liveness probe reports the channel online, the liveness
    monitor never evaluates a visibility predicate, has returned or raised
    within a fixed number of steps whatever the world answers, and, when it
    returns, its calls from the creation of the secondary session on are:
    create, open the Twitch page on the secondary, sleep 10 on the primary,
    the Accept re-check on the secondary, and the teardown right after. *)
Theorem twitch_monitor_no_wait_phase (w : world) (h : trace)
  (self : StreamBot.t) (driver : Driver) :
  presence_at_entry Twitch w h self driver = Some true ->
  (forall fuel,
     poll_free h
       (trace_of (exec w fuel (StreamBot.monitor_twitch_stream self driver) h)))
  /\ (forall fuel tr, 14 <= fuel ->
        exec w fuel (StreamBot.monitor_twitch_stream self driver) h
        <> OutOfFuel tr)
  /\ (forall fuel tr spare,
        exec w fuel (StreamBot.monitor_twitch_stream self driver) h
        = Returned tt tr spare ->
        exists pre new_driver tail,
          tr = h ++ pre
                 ++ [GetNewDriver driver true;
                     UcOpenWithReconnect new_driver
                       ("https://www.twitch.tv/"
                          ++ username (StreamBot.streamer self))%string 5;
                     Sleep driver 10]
                 ++ tail ++ [QuitExtraDriver driver]
          /\ (tail = [IsElementPresent new_driver accept_button] \/
              tail = [IsElementPresent new_driver accept_button;
                      UcClick new_driver accept_button 4])).
Proof.
  intros Hp. split.
  { intros fuel.
    destruct (proj1 (holds_monitor_twitch_only w self driver h) fuel)
      as (evs & E & Hall).
    exists evs. split; [exact E|].
    apply (only_count_zero _ _ _ twitch_monitor_call_not_poll Hall). }
  split; [intros fuel tr Hf; apply halts_monitor_twitch, Hf|].
  intros fuel tr spare E.
  enough (post w (StreamBot.monitor_twitch_stream self driver) h
    (fun _ tr =>
       exists pre new_driver tail,
         tr = h ++ pre
                ++ [GetNewDriver driver true;
                    UcOpenWithReconnect new_driver
                      ("https://www.twitch.tv/"
                         ++ username (StreamBot.streamer self))%string 5;
                    Sleep driver 10]
                ++ tail ++ [QuitExtraDriver driver]
         /\ (tail = [IsElementPresent new_driver accept_button] \/
             tail = [IsElementPresent new_driver accept_button;
                     UcClick new_driver accept_button 4]))) as P
    by exact (P _ _ _ _ E).
  clear E. unfold StreamBot.monitor_twitch_stream, presence_at_entry in *.
  apply post_bind.
  eapply post_weaken; [apply post_is_twitch_online|].
  intros online h0 [-> Ho]. rewrite Hp in Ho. injection Ho as <-.
  cbv zeta. apply post_call. intros [] _.
  apply post_bind.
  eapply post_weaken; [apply post_click_accept_exact|].
  intros [] h1 H1.
  apply post_call. intros new_driver _.
  apply post_call. intros [] _.
  apply post_call. intros [] _.
  apply post_bind.
  eapply post_weaken; [apply post_click_accept_exact|].
  intros [] h2 H2.
  apply (post_perform w (QuitExtraDriver driver)). intros [] _.
  set (req := liveness_request (username (StreamBot.streamer self))).
  set (nav := UcOpenWithReconnect driver
                ("https://www.twitch.tv/"
                   ++ username (StreamBot.streamer self))%string 5).
  destruct H1 as ([|] & _ & ->); destruct H2 as ([|] & _ & ->).
  - exists [req; nav; IsElementPresent driver accept_button;
            UcClick driver accept_button 4],
      new_driver, [IsElementPresent new_driver accept_button;
                   UcClick new_driver accept_button 4].
    split; [|right; reflexivity].
    repeat rewrite <- app_assoc. reflexivity.
  - exists [req; nav; IsElementPresent driver accept_button;
            UcClick driver accept_button 4],
      new_driver, [IsElementPresent new_driver accept_button].
    split; [|left; reflexivity].
    repeat rewrite <- app_assoc. reflexivity.
  - exists [req; nav; IsElementPresent driver accept_button],
      new_driver, [IsElementPresent new_driver accept_button;
                   UcClick new_driver accept_button 4].
    split; [|right; reflexivity].
    repeat rewrite <- app_assoc. reflexivity.
  - exists [req; nav; IsElementPresent driver accept_button],
      new_driver, [IsElementPresent new_driver accept_button].
    split; [|left; reflexivity].
    repeat rewrite <- app_assoc. reflexivity.
Qed.

Lemma twitch_monitor_no_wait_phase_witness :
  presence_at_entry Twitch live_world [] main_bot 0 = Some true
  /\ exec live_world 11 (StreamBot.monitor_twitch_stream main_bot 0) [] =
       Returned tt
         ([] ++ [liveness_request "brutalles";
                 UcOpenWithReconnect 0 "https://www.twitch.tv/brutalles" 5;
                 IsElementPresent 0 accept_button; UcClick 0 accept_button 4]
             ++ [GetNewDriver 0 true;
                 UcOpenWithReconnect 1 "https://www.twitch.tv/brutalles" 5;
                 Sleep 0 10]
             ++ [IsElementPresent 1 accept_button; UcClick 1 accept_button 4]
             ++ [QuitExtraDriver 0]) 0
  /\ (forall fuel,
        poll_free []
          (trace_of
             (exec live_world fuel
                (StreamBot.monitor_twitch_stream main_bot 0) [])))
  /\ (forall fuel tr, 14 <= fuel ->
        exec live_world fuel (StreamBot.monitor_twitch_stream main_bot 0) []
        <> OutOfFuel tr)
  /\ (forall fuel tr spare,
        exec live_world fuel (StreamBot.monitor_twitch_stream main_bot 0) []
        = Returned tt tr spare ->
        exists pre new_driver tail,
          tr = [] ++ pre
                 ++ [GetNewDriver 0 true;
                     UcOpenWithReconnect new_driver
                       ("https://www.twitch.tv/"
                          ++ username (StreamBot.streamer main_bot))%string 5;
                     Sleep 0 10]
                 ++ tail ++ [QuitExtraDriver 0]
          /\ (tail = [IsElementPresent new_driver accept_button] \/
              tail = [IsElementPresent new_driver accept_button;
                      UcClick new_driver accept_button 4])).
Proof.
  split; [reflexivity|]. split; [reflexivity|].
  apply (twitch_monitor_no_wait_phase live_world [] main_bot 0).
  reflexivity.
Defined.

(** ** The secondary's open in the two monitors *)

(** C5 (the code departs from it): the liveness monitor never makes a
    CAPTCHA call nor the 4-second settle sleep, whatever the world answers.
    With the channel live and the player visible, its secondary session is
    opened by a bare navigation with budget 5, while the player monitor
    opens its secondary with the whole of [open_stream_and_handle_popups]:
    navigation with budget 5, the 4-second sleep, both CAPTCHA calls with
    their sleeps, and the Accept check. *)
Theorem twitch_mirror_is_bare_navigation :
  (forall (w : world) (h : trace) (self : StreamBot.t) (driver : Driver)
          (fuel : nat),
     exists evs,
       trace_of (exec w fuel (StreamBot.monitor_twitch_stream self driver) h)
       = h ++ evs
       /\ count is_captcha evs = 0 /\ count is_settle evs = 0)
  /\ exec live_world 11 (StreamBot.monitor_twitch_stream main_bot 0) [] =
       Returned tt
         [liveness_request "brutalles";
          UcOpenWithReconnect 0 "https://www.twitch.tv/brutalles" 5;
          IsElementPresent 0 accept_button; UcClick 0 accept_button 4;
          GetNewDriver 0 true;
          UcOpenWithReconnect 1 "https://www.twitch.tv/brutalles" 5;
          Sleep 0 10;
          IsElementPresent 1 accept_button; UcClick 1 accept_button 4;
          QuitExtraDriver 0] 0
  /\ exec live_world 22 (StreamBot.monitor_kick_stream main_bot 0) [] =
       Returned tt
         [IsElementVisible 0 player_selector;
          GetNewDriver 0 true;
          UcOpenWithReconnect 1 "https://kick.com/brutalles" 5;
          Sleep 1 4;
          UcGuiClickCaptcha 1; Sleep 1 1;
          UcGuiHandleCaptcha 1; Sleep 1 4;
          IsElementPresent 1 accept_button; UcClick 1 accept_button 4;
          Sleep 0 10;
          IsElementPresent 1 accept_button; UcClick 1 accept_button 4;
          IsElementVisible 0 player_selector; Sleep 0 10;
          IsElementVisible 0 player_selector; Sleep 0 10;
          IsElementVisible 0 player_selector;
          QuitExtraDriver 0] 0.
Proof.
  split; [|split; reflexivity].
  intros w h self driver fuel.
  destruct (proj1 (holds_monitor_twitch_only w self driver h) fuel)
    as (evs & E & Hall).
  exists evs. split; [exact E|]. split.
  - apply (only_count_zero _ _ _ twitch_monitor_call_not_captcha Hall).
  - apply (only_count_zero _ _ _ twitch_monitor_call_not_settle Hall).
Qed.

(** ** The sessions a monitor leaves open *)

Lemma sessions_at_refl (s0 : sessions) (h : trace) : sessions_at s0 s0 h h.
Proof. exists []. rewrite app_nil_r. split; reflexivity. Qed.

Lemma sessions_at_step (c : call) (s0 s : sessions) (h h' : trace) :
  sessions_at s0 s h h' -> sessions_at s0 (session_step s c) h (h' ++ [c]).
Proof.
  intros (evs & -> & E). exists (evs ++ [c]).
  rewrite app_assoc. split; [reflexivity|].
  unfold sessions_after in *. rewrite fold_left_app, E. reflexivity.
Qed.

Lemma sessions_at_closed (s0 s : sessions) (h : trace) :
  closed_under routine (sessions_at s0 s h).
Proof.
  intros h' c Hc A. apply (sessions_at_step c) in A.
  destruct c; try discriminate Hc; exact A.
Qed.

Lemma quit_after_spawn (s : sessions) (d : Driver) :
  session_step (with_secondary s) (QuitExtraDriver d) = s.
Proof. destruct s. reflexivity. Qed.

Lemma holds_monitor_sessions (p : platform) (w : world) (self : StreamBot.t)
  (driver : Driver) (h : trace) (s0 : sessions) :
  holds w (monitor p self driver) h
    (fun h' => sessions_at s0 s0 h h' \/
               sessions_at s0 (with_secondary s0) h h')
    (fun _ h' => sessions_at s0 s0 h h').
Proof.
  pose proof (sessions_at_closed s0 s0 h) as C0.
  pose proof (sessions_at_closed s0 (with_secondary s0) h) as C1.
  pose proof (sessions_at_refl s0 h) as A.
  destruct p; unfold monitor.
  - unfold StreamBot.monitor_kick_stream.
    pose proof (C0 _ (IsElementVisible driver player_selector) eq_refl A)
      as A'.
    apply holds_call; [left; exact A | left; exact A' |].
    clear A. intros [|] _; [|apply holds_ret; [left|]; exact A'].
    pose proof (sessions_at_step (GetNewDriver driver true) _ _ _ _ A')
      as A1.
    apply holds_call; [left; exact A' | right; exact A1 |].
    clear A'. intros new_driver _.
    apply holds_bind.
    eapply holds_consequence;
      [apply (holds_open_stream routine w _ C1 (fun c H => H)
                self new_driver 5 _ A1) | intros; right; assumption |].
    clear A1. intros [] h1 A1. cbv beta.
    step_call_by ltac:(right) C1 A1.
    apply holds_bind.
    eapply holds_consequence;
      [apply (holds_click_accept routine w _ C1 new_driver _
                eq_refl eq_refl A1) | intros; right; assumption |].
    clear A1. intros [] h2 A1. cbv beta.
    apply holds_bind.
    eapply holds_consequence;
      [apply (holds_wait routine w _ C1 (fun c H => H) driver _ A1)
      | intros; right; assumption |].
    clear A1. intros [] h3 A1. cbv beta.
    pose proof (sessions_at_step (QuitExtraDriver driver) _ _ _ _ A1) as A0.
    rewrite quit_after_spawn in A0.
    apply (holds_perform w (QuitExtraDriver driver));
      [right; exact A1 | left; exact A0 | intros _ _; exact A0].
  - unfold StreamBot.monitor_twitch_stream.
    pose proof (C0 _ (liveness_request (username (StreamBot.streamer self)))
                  eq_refl A) as A'.
    apply holds_bind.
    eapply holds_consequence;
      [apply (holds_is_twitch_online w _ h
                (fun h' => sessions_at s0 s0 h h' \/
                           sessions_at s0 (with_secondary s0) h h'));
       [left; exact A | left; exact A']
      | auto |].
    clear A. intros [|] h0 [-> _]; [|apply holds_ret; [left|]; exact A'].
    cbv zeta.
    step_call_by ltac:(left) C0 A'.
    apply holds_bind.
    eapply holds_consequence;
      [apply (holds_click_accept routine w _ C0 driver _
                eq_refl eq_refl A') | intros; left; assumption |].
    clear A'. intros [] h1 A'. cbv beta.
    pose proof (sessions_at_step (GetNewDriver driver true) _ _ _ _ A')
      as A1.
    apply holds_call; [left; exact A' | right; exact A1 |].
    clear A'. intros new_driver _.
    step_call_by ltac:(right) C1 A1.
    step_call_by ltac:(right) C1 A1.
    apply holds_bind.
    eapply holds_consequence;
      [apply (holds_click_accept routine w _ C1 new_driver _
                eq_refl eq_refl A1) | intros; right; assumption |].
    clear A1. intros [] h2 A1. cbv beta.
    pose proof (sessions_at_step (QuitExtraDriver driver) _ _ _ _ A1) as A0.
    rewrite quit_after_spawn in A0.
    apply (holds_perform w (QuitExtraDriver driver));
      [right; exact A1 | left; exact A0 | intros _ _; exact A0].
Qed.

(** C9: started with the primary session open, either monitor keeps it
    open at every point of its run, whether it returns, raises or is still
    running: the open sessions are those found at entry, or those plus the
    one secondary session the monitor has created, so the only session a
    monitor closes is that secondary. When the monitor returns, the open
    sessions are exactly those found at entry. *)
Theorem monitors_leave_primary_open (p : platform) (w : world) (h : trace)
  (self : StreamBot.t) (driver : Driver) (s : sessions) (fuel : nat) :
  primary_open s = true ->
  exists evs,
    trace_of (exec w fuel (monitor p self driver) h) = h ++ evs
    /\ primary_open (sessions_after s evs) = true
    /\ (sessions_after s evs = s \/ sessions_after s evs = with_secondary s)
    /\ (forall tr spare,
          exec w fuel (monitor p self driver) h = Returned tt tr spare ->
          sessions_after s evs = s).
Proof.
  intros Hs.
  destruct (holds_monitor_sessions p w self driver h s) as [Ha Hp].
  assert (exists evs,
            trace_of (exec w fuel (monitor p self driver) h) = h ++ evs /\
            (sessions_after s evs = s \/
             sessions_after s evs = with_secondary s)) as (evs & E & D).
  { destruct (Ha fuel) as [(evs & E & D) | (evs & E & D)];
      exists evs; split; auto. }
  exists evs. split; [exact E|]. split; [|split; [exact D|]].
  - destruct D as [-> | ->]; exact Hs.
  - intros tr spare R.
    destruct (Hp _ _ _ _ R) as (evs' & E' & D').
    rewrite R in E. simpl in E. rewrite E in E'.
    apply app_inv_head in E'. subst evs'. exact D'.
Qed.

Lemma monitors_leave_primary_open_witness :
  primary_open (mkSessions true 0) = true
  /\ (exists evs,
        trace_of (exec live_world 22 (monitor Kick main_bot 0) []) = [] ++ evs
        /\ primary_open (sessions_after (mkSessions true 0) evs) = true
        /\ (sessions_after (mkSessions true 0) evs = mkSessions true 0 \/
            sessions_after (mkSessions true 0) evs
            = with_secondary (mkSessions true 0))
        /\ (forall tr spare,
              exec live_world 22 (monitor Kick main_bot 0) []
              = Returned tt tr spare ->
              sessions_after (mkSessions true 0) evs = mkSessions true 0))
  /\ (exists evs,
        trace_of (exec live_world 5 (monitor Twitch main_bot 0) []) = [] ++ evs
        /\ primary_open (sessions_after (mkSessions true 0) evs) = true
        /\ (sessions_after (mkSessions true 0) evs = mkSessions true 0 \/
            sessions_after (mkSessions true 0) evs
            = with_secondary (mkSessions true 0))
        /\ (forall tr spare,
              exec live_world 5 (monitor Twitch main_bot 0) []
              = Returned tt tr spare ->
              sessions_after (mkSessions true 0) evs = mkSessions true 0)).
Proof.
  split; [reflexivity|]. split.
  - apply (monitors_leave_primary_open Kick live_world [] main_bot 0
             (mkSessions true 0) 22). reflexivity.
  - apply (monitors_leave_primary_open Twitch live_world [] main_bot 0
             (mkSessions true 0) 5). reflexivity.
Defined.

(** ** The liveness monitor turns the primary session first *)

Lemma no_secondary_yet_closed (h : trace) :
  closed_under routine (no_secondary_yet h).
Proof.
  intros h0 c Hc (evs & -> & E). exists (evs ++ [c]).
  rewrite app_assoc. split; [reflexivity|].
  apply routine_not_spawn in Hc. destruct Hc as [Hs _].
  unfold spawned in *. rewrite count_app, E. unfold count. simpl.
  rewrite Hs. reflexivity.
Qed.

Lemma primary_done_closed (w : world) (h : trace) (self : StreamBot.t)
  (driver : Driver) :
  closed_under (fun _ => true) (primary_done w h self driver).
Proof.
  intros h0 c _ (evs & -> & present & rest & Hw & ->).
  exists (([liveness_request (username (StreamBot.streamer self));
            UcOpenWithReconnect driver
              ("https://www.twitch.tv/"
                 ++ username (StreamBot.streamer self))%string 5;
            IsElementPresent driver accept_button]
           ++ (if present then [UcClick driver accept_button 4] else [])
           ++ GetNewDriver driver true :: rest) ++ [c]).
  split; [symmetry; apply app_assoc|].
  exists present, (rest ++ [c]). split; [exact Hw|].
  repeat rewrite <- app_assoc. reflexivity.
Qed.

Lemma holds_monitor_twitch_primary_first (w : world) (h : trace)
  (self : StreamBot.t) (driver : Driver) :
  presence_at_entry Twitch w h self driver = Some true ->
  holds w (StreamBot.monitor_twitch_stream self driver) h
    (fun h' => no_secondary_yet h h' \/ primary_done w h self driver h')
    (fun _ h' => primary_done w h self driver h').
Proof.
  intros Hp. unfold presence_at_entry in Hp.
  unfold StreamBot.monitor_twitch_stream.
  pose proof (no_secondary_yet_closed h) as CN.
  pose proof (primary_done_closed w h self driver) as CD.
  assert (closed_under routine
            (fun h' => no_secondary_yet h h' \/
                       primary_done w h self driver h')) as CP.
  { intros h0 c Hc [N | D]; [left; apply CN | right; apply CD]; auto. }
  assert (no_secondary_yet h h) as N
    by (exists []; rewrite app_nil_r; split; reflexivity).
  pose proof (CN _ (liveness_request (username (StreamBot.streamer self)))
                eq_refl N) as N1.
  apply holds_bind.
  eapply holds_consequence;
    [apply (holds_is_twitch_online w _ h
              (fun h' => no_secondary_yet h h' \/
                         primary_done w h self driver h'));
     [left; exact N | left; exact N1]
    | auto |].
  clear N. intros online h0 [-> Ho]. rewrite Hp in Ho. injection Ho as <-.
  cbv zeta.
  step_call_by ltac:(left) CN N1.
  apply holds_bind. split.
  { apply (proj1 (holds_click_accept routine w _ CP driver _
                    eq_refl eq_refl (or_introl N1))). }
  eapply post_weaken; [apply post_click_accept_exact|].
  intros [] h1 (present & Hw & ->). cbv beta.
  rewrite <- app_assoc in Hw. cbn [app] in Hw.
  assert (no_secondary_yet h
            (((h ++ [liveness_request (username (StreamBot.streamer self))])
                ++ [UcOpenWithReconnect driver
                      ("https://www.twitch.tv/"
                         ++ username (StreamBot.streamer self))%string 5])
               ++ IsElementPresent driver accept_button
                  :: (if present then [UcClick driver accept_button 4]
                      else []))) as N2.
  { eexists. repeat rewrite <- app_assoc. split; [reflexivity|].
    destruct present; reflexivity. }
  assert (primary_done w h self driver
            ((((h ++ [liveness_request (username (StreamBot.streamer self))])
                 ++ [UcOpenWithReconnect driver
                       ("https://www.twitch.tv/"
                          ++ username (StreamBot.streamer self))%string 5])
                ++ IsElementPresent driver accept_button
                   :: (if present then [UcClick driver accept_button 4]
                       else []))
               ++ [GetNewDriver driver true])) as D.
  { eexists. repeat rewrite <- app_assoc. split; [reflexivity|].
    exists present, []. split; [exact Hw | reflexivity]. }
  apply holds_call; [left; exact N2 | right; exact D |].
  clear N1 N2. intros new_driver _.
  step_call_by ltac:(right) CD D.
  step_call_by ltac:(right) CD D.
  apply holds_bind.
  eapply holds_consequence;
    [apply (holds_click_accept (fun _ => true) w _ CD new_driver _
              eq_refl eq_refl D) | intros; right; assumption |].
  clear D. intros [] h2 D. cbv beta.
  pose proof (CD _ (QuitExtraDriver driver) eq_refl D) as D'.
  apply (holds_perform w (QuitExtraDriver driver));
    [right; exact D | right; exact D' | intros _ _; exact D'].
Qed.

(** C10: when the liveness probe reports the channel online, the calls of
    the liveness monitor up to the creation of the secondary session are:
    the page request, the navigation of the primary session to the Twitch
    page with budget 5, the Accept check on the primary session and, iff
    the button is present, its click on the primary session. At every point
    of the run either no secondary session has been created yet or the run
    began that way; a run that returns began that way. *)
Theorem twitch_monitor_turns_primary_first (w : world) (h : trace)
  (self : StreamBot.t) (driver : Driver) (fuel : nat) :
  presence_at_entry Twitch w h self driver = Some true ->
  (exists evs,
     trace_of (exec w fuel (StreamBot.monitor_twitch_stream self driver) h)
     = h ++ evs
     /\ (spawned evs = 0 \/ primary_first w h self driver evs))
  /\ (forall tr spare,
        exec w fuel (StreamBot.monitor_twitch_stream self driver) h
        = Returned tt tr spare ->
        exists evs, tr = h ++ evs /\ primary_first w h self driver evs).
Proof.
  intros Hp.
  destruct (holds_monitor_twitch_primary_first w h self driver Hp)
    as [Ha Hq].
  split.
  - destruct (Ha fuel) as [(evs & E & N) | (evs & E & D)];
      exists evs; split; auto.
  - intros tr spare R. apply (Hq _ _ _ _ R).
Qed.

Lemma twitch_monitor_turns_primary_first_witness :
  presence_at_entry Twitch live_world [] main_bot 0 = Some true
  /\ exec live_world 11 (StreamBot.monitor_twitch_stream main_bot 0) [] =
       Returned tt
         [liveness_request "brutalles";
          UcOpenWithReconnect 0 "https://www.twitch.tv/brutalles" 5;
          IsElementPresent 0 accept_button; UcClick 0 accept_button 4;
          GetNewDriver 0 true;
          UcOpenWithReconnect 1 "https://www.twitch.tv/brutalles" 5;
          Sleep 0 10;
          IsElementPresent 1 accept_button; UcClick 1 accept_button 4;
          QuitExtraDriver 0] 0
  /\ (exists evs,
        trace_of
          (exec live_world 11 (StreamBot.monitor_twitch_stream main_bot 0) [])
        = [] ++ evs
        /\ (spawned evs = 0 \/ primary_first live_world [] main_bot 0 evs))
  /\ (forall tr spare,
        exec live_world 11 (StreamBot.monitor_twitch_stream main_bot 0) []
        = Returned tt tr spare ->
        exists evs,
          tr = [] ++ evs /\ primary_first live_world [] main_bot 0 evs).
Proof.
  split; [reflexivity|]. split; [reflexivity|].
  apply (twitch_monitor_turns_primary_first live_world [] main_bot 0 11).
  reflexivity.
Defined.

(** ** Rules for [outcomes] *)

Lemma outcomes_ret {R : Type} (w : world) (r : R) (h : trace)
  (Q : R -> trace -> Prop) (E P : trace -> Prop) :
  P h -> Q r h -> outcomes w (Ret r) h Q E P.
Proof. intros HP HQ [|fuel]; [exact HP | exact HQ]. Qed.

Lemma outcomes_call {R : Type} (w : world) (c : call)
  (k : result_of c -> itree botE R) (h : trace)
  (Q : R -> trace -> Prop) (E P : trace -> Prop) :
  P h ->
  (w h c = None -> E (h ++ [c])) ->
  (forall x, w h c = Some x -> outcomes w (k x) (h ++ [c]) Q E P) ->
  outcomes w (ITree.bind (perform c) k) h Q E P.
Proof.
  intros HP HE Hk [|fuel]; [exact HP|].
  unfold outcomes in Hk. rewrite exec_call.
  destruct (w h c) as [x|]; [apply (Hk x eq_refl) | apply HE; reflexivity].
Qed.

Lemma outcomes_perform (w : world) (c : call) (h : trace)
  (Q : result_of c -> trace -> Prop) (E P : trace -> Prop) :
  P h ->
  (w h c = None -> E (h ++ [c])) ->
  (forall x, w h c = Some x -> P (h ++ [c]) /\ Q x (h ++ [c])) ->
  outcomes w (perform c) h Q E P.
Proof.
  intros HP HE HQ [|fuel]; [exact HP|].
  rewrite exec_perform.
  destruct (w h c) as [x|]; [|apply HE; reflexivity].
  destruct (HQ x eq_refl) as [HPc HQc].
  destruct fuel; [exact HPc | exact HQc].
Qed.

Lemma outcomes_bind {A R : Type} (w : world) (t : itree botE A)
  (k : A -> itree botE R) (h : trace)
  (Q : R -> trace -> Prop) (E P : trace -> Prop) :
  outcomes w t h (fun x h' => outcomes w (k x) h' Q E P) E P ->
  outcomes w (ITree.bind t k) h Q E P.
Proof.
  intros Ht fuel. rewrite exec_bind. specialize (Ht fuel).
  destruct (exec w fuel t h) as [x h1 s1 | h1 | h1];
    [apply Ht | exact Ht | exact Ht].
Qed.

Lemma outcomes_consequence {R : Type} (w : world) (t : itree botE R)
  (h : trace) (Q Q' : R -> trace -> Prop) (E E' P P' : trace -> Prop) :
  outcomes w t h Q E P ->
  (forall r h', Q r h' -> Q' r h') ->
  (forall h', E h' -> E' h') ->
  (forall h', P h' -> P' h') ->
  outcomes w t h Q' E' P'.
Proof.
  intros Ht HQ HE HP fuel. specialize (Ht fuel).
  destruct (exec w fuel t h); [apply HQ | apply HE | apply HP]; exact Ht.
Qed.

Lemma outcomes_while (w : world) (cond : itree botE bool)
  (body : itree botE unit) (Inv : trace -> Prop)
  (Q : unit -> trace -> Prop) (E P : trace -> Prop) :
  (forall h0, Inv h0 ->
     outcomes w cond h0 (fun b h1 =>
       if b : bool then outcomes w body h1 (fun _ h2 => Inv h2) E P
       else Q tt h1) E P) ->
  forall h, Inv h -> outcomes w (while cond body) h Q E P.
Proof.
  intros Hstep h Hinv fuel. revert h Hinv.
  induction fuel as [fuel IH] using lt_wf_ind. intros h Hinv.
  rewrite exec_while, exec_bind.
  pose proof (Hstep h Hinv fuel) as Hc.
  destruct (exec w fuel cond h) as [b h1 s1 | h1 | h1] eqn:Ec;
    try exact Hc.
  pose proof (exec_spare_lt _ _ _ _ _ _ _ Ec) as Hs1.
  destruct b.
  - rewrite exec_bind. specialize (Hc (S s1)).
    destruct (exec w (S s1) body h1) as [[] h2 s2 | h2 | h2] eqn:Eb;
      try exact Hc.
    pose proof (exec_spare_lt _ _ _ _ _ _ _ Eb) as Hs2.
    rewrite exec_tau. apply IH; [lia | exact Hc].
  - rewrite exec_ret. exact Hc.
Qed.

(** Execution only appends to the history. *)
Lemma exec_extends {R : Type} (w : world) (fuel : nat) :
  forall (t : itree botE R) (h : trace),
    exists evs, trace_of (exec w fuel t h) = h ++ evs.
Proof.
  induction fuel as [|fuel IH]; intros t h; simpl.
  - exists []. symmetry. apply app_nil_r.
  - destruct (observe t) as [r0 | u | X e k].
    + exists []. symmetry. apply app_nil_r.
    + apply IH.
    + destruct e as [c]. destruct (w h c) as [x|].
      * destruct (IH (k x) (h ++ [c])) as [evs Hevs].
        exists (c :: evs). rewrite Hevs, <- app_assoc. reflexivity.
      * exists [c]. reflexivity.
Qed.

(** ** The CAPTCHA handler and the opening, whatever the world answers *)

(** X1: [handle_captcha] makes its four calls in order (the CAPTCHA click,
    a 1-second sleep, the CAPTCHA resolution, a 4-second sleep) and stops
    at the first one that raises: it returns after the four calls when all
    of them return, and otherwise raises with the log ending at the call
    that raised. *)
Theorem handle_captcha_stops_at_first_failure (w : world) (h : trace)
  (self : CaptchaHandler.t) (fuel : nat) :
  exec w (5 + fuel) (CaptchaHandler.handle_captcha self) h =
  if answered w h
       [UcGuiClickCaptcha (CaptchaHandler.driver self);
        Sleep (CaptchaHandler.driver self) 1;
        UcGuiHandleCaptcha (CaptchaHandler.driver self);
        Sleep (CaptchaHandler.driver self) 4]
  then
    Returned tt
      (h ++ [UcGuiClickCaptcha (CaptchaHandler.driver self);
             Sleep (CaptchaHandler.driver self) 1;
             UcGuiHandleCaptcha (CaptchaHandler.driver self);
             Sleep (CaptchaHandler.driver self) 4]) fuel
  else
    Raised
      (attempted w h
         [UcGuiClickCaptcha (CaptchaHandler.driver self);
          Sleep (CaptchaHandler.driver self) 1;
          UcGuiHandleCaptcha (CaptchaHandler.driver self);
          Sleep (CaptchaHandler.driver self) 4]).
Proof.
  unfold CaptchaHandler.handle_captcha. simpl plus.
  set (d := CaptchaHandler.driver self).
  cbn [answered attempted].
  rewrite exec_call.
  destruct (w h (UcGuiClickCaptcha d)) as [[]|]; [|reflexivity].
  rewrite exec_call.
  destruct (w _ (Sleep d 1)) as [[]|]; [|reflexivity].
  rewrite exec_call.
  destruct (w _ (UcGuiHandleCaptcha d)) as [[]|]; [|reflexivity].
  rewrite (exec_perform w _ (Sleep d 4)).
  destruct (w _ (Sleep d 4)) as [[]|]; [|reflexivity].
  rewrite exec_ret. repeat rewrite <- app_assoc. reflexivity.
Qed.

Lemma plain_on_count_zero (d : Driver) (f : call -> bool) (evs : trace) :
  (forall c, routine c && negb (is_poll c) = true -> f c = false) ->
  forallb (plain_on d) evs = true -> count f evs = 0.
Proof.
  intros Hf. apply only_count_zero. intros c Hc. apply Hf.
  unfold plain_on in Hc. destruct (session_of c); [|discriminate Hc].
  rewrite <- andb_assoc in Hc. apply andb_prop in Hc. apply Hc.
Qed.

Lemma plain_on_same (d : Driver) (c : call) :
  session_of c = Some d -> routine c = true -> is_poll c = false ->
  plain_on d c = true.
Proof.
  intros Hs Hr Hp. unfold plain_on.
  rewrite Hs, Nat.eqb_refl, Hr, Hp. reflexivity.
Qed.

(** One call on session [d] of the plain kind, in a goal about [holds]. *)
Ltac plain_call d C H :=
  match goal with
  | |- holds _ (ITree.bind (perform ?c) _) ?h0 _ _ =>
      let H' := fresh in
      pose proof (C h0 c (plain_on_same d c eq_refl eq_refl eq_refl) H)
        as H';
      apply holds_call; [exact H | exact H' | intros ? _];
      clear H; rename H' into H
  end.

Lemma holds_open_stream_plain (w : world) (self : StreamBot.t) (d : Driver)
  (reconnect_time : Z) (h : trace) :
  holds w (StreamBot.open_stream_and_handle_popups self d reconnect_time) h
    (only (plain_on d) h) (fun _ h' => only (plain_on d) h h').
Proof.
  pose proof (only_closed (plain_on d) h) as C.
  pose proof (only_refl (plain_on d) h) as F.
  unfold StreamBot.open_stream_and_handle_popups. cbv zeta.
  plain_call d C F. plain_call d C F.
  apply holds_bind. unfold CaptchaHandler.handle_captcha.
  simpl CaptchaHandler.driver.
  assert (forall h0, only (plain_on d) h h0 ->
            holds w
              (perform (UcGuiClickCaptcha d) ;; perform (Sleep d 1) ;;
               perform (UcGuiHandleCaptcha d) ;; perform (Sleep d 4)) h0
              (only (plain_on d) h)
              (fun _ h' => only (plain_on d) h h')) as Hc.
  { intros h0 F0.
    plain_call d C F0. plain_call d C F0. plain_call d C F0.
    pose proof (C _ (Sleep d 4)
                  (plain_on_same d (Sleep d 4) eq_refl eq_refl eq_refl) F0)
      as F1.
    apply (holds_perform w (Sleep d 4));
      [exact F0 | exact F1 | intros _ _; exact F1]. }
  eapply holds_consequence; [apply Hc, F | auto |].
  clear F. intros [] h1 F. cbv beta.
  apply (holds_click_accept (plain_on d) w _ C d _
           (plain_on_same d (IsElementPresent d accept_button)
              eq_refl eq_refl eq_refl)
           (plain_on_same d (UcClick d accept_button 4)
              eq_refl eq_refl eq_refl) F).
Qed.

Lemma halts_open_stream (w : world) (self : StreamBot.t) (d : Driver)
  (reconnect_time : Z) (h : trace) :
  halts_within w
    (StreamBot.open_stream_and_handle_popups self d reconnect_time) h 10.
Proof.
  unfold StreamBot.open_stream_and_handle_popups. cbv zeta.
  apply halts_call. intros [] _. apply halts_call. intros [] _.
  apply (halts_bind w _ _ _ 5 3).
  - unfold CaptchaHandler.handle_captcha.
    apply halts_call. intros [] _. apply halts_call. intros [] _.
    apply halts_call. intros [] _.
    apply (halts_perform w (Sleep _ 4)).
  - intros fuel [] h1 spare _. apply halts_click_accept.
Qed.

(** X2: whatever the world answers, and whether it returns, raises or is
    cut short, [open_stream_and_handle_popups] only makes calls on the
    session it is given: it creates no session, closes none and never
    checks an element's visibility; and it has returned or raised within 10
    steps. *)
Theorem open_stream_stays_on_its_session (w : world) (self : StreamBot.t)
  (d : Driver) (reconnect_time : Z) (h : trace) (fuel : nat) :
  (exists evs,
     trace_of
       (exec w fuel
          (StreamBot.open_stream_and_handle_popups self d reconnect_time) h)
     = h ++ evs
     /\ forallb (fun c => match session_of c with
                          | Some d' => Nat.eqb d' d
                          | None => false
                          end) evs = true
     /\ spawned evs = 0 /\ torn_down evs = 0 /\ polls evs = 0)
  /\ (10 <= fuel -> forall tr,
        exec w fuel
          (StreamBot.open_stream_and_handle_popups self d reconnect_time) h
        <> OutOfFuel tr).
Proof.
  split; [|intros Hf; apply halts_open_stream, Hf].
  destruct (proj1 (holds_open_stream_plain w self d reconnect_time h) fuel)
    as (evs & E & Hall).
  exists evs. split; [exact E|]. split; [|split; [|split]].
  - clear E. induction evs as [|c evs IH]; [reflexivity|].
    simpl in Hall |- *. apply andb_prop in Hall. destruct Hall as [Hc Hevs].
    rewrite (IH Hevs), andb_true_r.
    unfold plain_on in Hc. destruct (session_of c); [|discriminate Hc].
    apply andb_prop in Hc. destruct Hc as [Hc _].
    apply andb_prop in Hc. apply Hc.
  - apply (plain_on_count_zero d is_spawn); [|exact Hall].
    intros c; destruct c; simpl; intros Hc; try reflexivity; discriminate.
  - apply (plain_on_count_zero d is_teardown); [|exact Hall].
    intros c; destruct c; simpl; intros Hc; try reflexivity; discriminate.
  - apply (plain_on_count_zero d is_poll); [|exact Hall].
    intros c; destruct c; simpl; intros Hc; try reflexivity; discriminate.
Qed.

(** ** The calls of a returning run, exactly *)

Lemma slept_app (a b : trace) : slept (a ++ b) = (slept a + slept b)%Z.
Proof.
  unfold slept. induction a as [|c a IH]; simpl; [reflexivity|].
  rewrite IH. apply Z.add_assoc.
Qed.

Lemma slept_cons (c : call) (tr : trace) :
  slept (c :: tr) = (seconds_of c + slept tr)%Z.
Proof. reflexivity. Qed.

Lemma slept_laps (driver : Driver) (n : nat) :
  slept (laps driver n) = (10 * Z.of_nat n)%Z.
Proof.
  induction n as [|n IH]; [reflexivity|].
  simpl laps. rewrite slept_app, IH, Nat2Z.inj_succ.
  change (slept [IsElementVisible driver player_selector; Sleep driver 10])
    with 10%Z.
  lia.
Qed.

Lemma post_open_stream_exact (w : world) (self : StreamBot.t) (d : Driver)
  (reconnect_time : Z) (h : trace) :
  post w (StreamBot.open_stream_and_handle_popups self d reconnect_time) h
    (fun _ h' =>
       exists present : bool,
         w (h ++ calls_before_consent self d reconnect_time)
           (IsElementPresent d accept_button) = Some present /\
         h' = h ++ calls_before_consent self d reconnect_time
                ++ IsElementPresent d accept_button
                   :: (if present then [UcClick d accept_button 4] else [])).
Proof.
  unfold StreamBot.open_stream_and_handle_popups, calls_before_consent.
  cbv zeta.
  apply post_call. intros [] _. apply post_call. intros [] _.
  apply post_bind. unfold CaptchaHandler.handle_captcha.
  simpl CaptchaHandler.driver.
  apply post_call. intros [] _. apply post_call. intros [] _.
  apply post_call. intros [] _.
  apply (post_perform w (Sleep d 4)). intros [] _.
  eapply post_weaken; [apply post_click_accept_exact|].
  intros [] h' (present & Hw & ->). exists present.
  repeat rewrite <- app_assoc in Hw. repeat rewrite <- app_assoc.
  split; [exact Hw | reflexivity].
Qed.

(** X3: whenever [open_stream_and_handle_popups] returns, its calls were
    the navigation, the 4-second sleep, the CAPTCHA click, a 1-second sleep,
    the CAPTCHA resolution, a 4-second sleep and the Accept check, followed
    by the click exactly when the check answered true: 7 or 8 calls, and 9
    seconds of sleep in all. *)
Theorem open_stream_returning_run (w : world) (self : StreamBot.t)
  (d : Driver) (reconnect_time : Z) (h : trace) (fuel : nat) (tr : trace)
  (spare : nat) :
  exec w fuel (StreamBot.open_stream_and_handle_popups self d reconnect_time)
    h = Returned tt tr spare ->
  exists (present : bool) (evs : trace),
    w (h ++ calls_before_consent self d reconnect_time)
      (IsElementPresent d accept_button) = Some present
    /\ evs = calls_before_consent self d reconnect_time
             ++ IsElementPresent d accept_button
                :: (if present then [UcClick d accept_button 4] else [])
    /\ tr = h ++ evs
    /\ List.length evs = (if present then 8 else 7)
    /\ slept evs = 9%Z.
Proof.
  intros E.
  destruct (post_open_stream_exact w self d reconnect_time h _ _ _ _ E)
    as (present & Hw & ->).
  exists present. eexists. split; [exact Hw|]. split; [reflexivity|].
  split; [reflexivity|].
  destruct present; split; reflexivity.
Qed.

Lemma open_stream_returning_run_witness :
  exec consenting_world 9
    (StreamBot.open_stream_and_handle_popups main_bot 0 4) [] =
    Returned tt
      (calls_before_consent main_bot 0 4
         ++ [IsElementPresent 0 accept_button; UcClick 0 accept_button 4]) 0
  /\ exists (present : bool) (evs : trace),
       consenting_world ([] ++ calls_before_consent main_bot 0 4)
         (IsElementPresent 0 accept_button) = Some present
       /\ evs = calls_before_consent main_bot 0 4
                ++ IsElementPresent 0 accept_button
                   :: (if present then [UcClick 0 accept_button 4] else [])
       /\ calls_before_consent main_bot 0 4
            ++ [IsElementPresent 0 accept_button; UcClick 0 accept_button 4]
          = [] ++ evs
       /\ List.length evs = (if present then 8 else 7)
       /\ slept evs = 9%Z.
Proof.
  split; [reflexivity|].
  apply (open_stream_returning_run consenting_world main_bot 0 4 [] 9 _ 0).
  reflexivity.
Defined.

Lemma post_wait_answers (w : world) (driver : Driver) (h : trace) :
  post w (wait_while_player_visible driver) h
    (fun _ h' =>
       exists n,
         h' = h ++ laps driver n ++ [IsElementVisible driver player_selector]
         /\ (forall k, k < n ->
               w (h ++ laps driver k)
                 (IsElementVisible driver player_selector) = Some true)
         /\ w (h ++ laps driver n)
              (IsElementVisible driver player_selector) = Some false).
Proof.
  unfold wait_while_player_visible.
  apply (post_while w _ _
           (fun h' =>
              exists n,
                h' = h ++ laps driver n /\
                forall k, k < n ->
                  w (h ++ laps driver k)
                    (IsElementVisible driver player_selector) = Some true)).
  - intros h0 (n & -> & Hn).
    apply (post_perform w (IsElementVisible driver player_selector)).
    intros [|] Hv.
    + apply (post_perform w (Sleep driver 10)). intros [] _.
      exists (S n). split.
      * simpl laps. repeat rewrite <- app_assoc. reflexivity.
      * intros k Hk. destruct (Nat.eq_dec k n) as [->|Hne];
          [exact Hv | apply Hn; lia].
    + exists n. split; [rewrite <- app_assoc; reflexivity|].
      split; [exact Hn | exact Hv].
  - exists 0. split; [simpl; symmetry; apply app_nil_r|].
    intros k Hk. lia.
Qed.

Lemma kick_loop_entry_calls (h : trace) (self : StreamBot.t)
  (driver new_driver : Driver) (p1 p2 : bool) :
  kick_loop_entry h self driver new_driver p1 p2 =
  ((((h ++ [IsElementVisible driver player_selector])
       ++ [GetNewDriver driver true])
      ++ calls_before_consent self new_driver 5
         ++ IsElementPresent new_driver accept_button
            :: (if p1 then [UcClick new_driver accept_button 4] else []))
     ++ [Sleep driver 10])
    ++ IsElementPresent new_driver accept_button
       :: (if p2 then [UcClick new_driver accept_button 4] else []).
Proof.
  unfold kick_loop_entry, kick_entry, accept_replies.
  destruct p1, p2; cbn [List.map call_of projT1 answer app];
    repeat rewrite <- app_assoc; reflexivity.
Qed.

(** X4: whenever [monitor_kick_stream] finds the player visible and
    returns, its calls were: the visibility check, the creation of the
    secondary session, the whole opening on the secondary session with
    budget 5, a 10-second sleep on the primary, the Accept re-check on the
    secondary, [n] rounds of visibility check and 10-second sleep on the
    primary, the last check, and the teardown. Each of the two clicks on
    the secondary was made exactly when the world answered the Accept check
    before it with true ([p1], [p2]); [n] is the number of loop checks the
    world answered with true before the first false. It slept 19 + 10 n
    seconds in all. *)
Theorem kick_monitor_returning_run (w : world) (self : StreamBot.t)
  (driver : Driver) (h : trace) (fuel : nat) (tr : trace) (spare : nat) :
  w h (IsElementVisible driver player_selector) = Some true ->
  exec w fuel (StreamBot.monitor_kick_stream self driver) h
  = Returned tt tr spare ->
  exists (new_driver : Driver) (p1 p2 : bool) (n : nat),
    w (h ++ [IsElementVisible driver player_selector])
      (GetNewDriver driver true) = Some new_driver
    /\ w (h ++ [IsElementVisible driver player_selector;
                GetNewDriver driver true]
            ++ calls_before_consent self new_driver 5)
         (IsElementPresent new_driver accept_button) = Some p1
    /\ w (h ++ [IsElementVisible driver player_selector;
                GetNewDriver driver true]
            ++ calls_before_consent self new_driver 5
            ++ IsElementPresent new_driver accept_button
               :: (if p1 then [UcClick new_driver accept_button 4] else [])
            ++ [Sleep driver 10])
         (IsElementPresent new_driver accept_button) = Some p2
    /\ (forall k, k < n ->
          w (kick_loop_entry h self driver new_driver p1 p2 ++ laps driver k)
            (IsElementVisible driver player_selector) = Some true)
    /\ w (kick_loop_entry h self driver new_driver p1 p2 ++ laps driver n)
         (IsElementVisible driver player_selector) = Some false
    /\ tr = h ++ kick_calls self driver new_driver p1 p2 n
    /\ slept (kick_calls self driver new_driver p1 p2 n)
       = (19 + 10 * Z.of_nat n)%Z.
Proof.
  intros Hv E.
  enough (post w (StreamBot.monitor_kick_stream self driver) h
            (fun _ tr =>
               exists (new_driver : Driver) (p1 p2 : bool) (n : nat),
                 w (h ++ [IsElementVisible driver player_selector])
                   (GetNewDriver driver true) = Some new_driver
                 /\ w (((h ++ [IsElementVisible driver player_selector])
                          ++ [GetNewDriver driver true])
                         ++ calls_before_consent self new_driver 5)
                      (IsElementPresent new_driver accept_button) = Some p1
                 /\ w ((((h ++ [IsElementVisible driver player_selector])
                           ++ [GetNewDriver driver true])
                          ++ calls_before_consent self new_driver 5
                             ++ IsElementPresent new_driver accept_button
                                :: (if p1
                                    then [UcClick new_driver accept_button 4]
                                    else []))
                         ++ [Sleep driver 10])
                      (IsElementPresent new_driver accept_button) = Some p2
                 /\ (forall k, k < n ->
                       w (kick_loop_entry h self driver new_driver p1 p2
                            ++ laps driver k)
                         (IsElementVisible driver player_selector)
                       = Some true)
                 /\ w (kick_loop_entry h self driver new_driver p1 p2
                         ++ laps driver n)
                      (IsElementVisible driver player_selector) = Some false
                 /\ tr = h ++ kick_calls self driver new_driver p1 p2 n))
    as P.
  { destruct (P _ _ _ _ E)
      as (nd & p1 & p2 & n & Hn & H1 & H2 & Ht & Hf & ->).
    exists nd, p1, p2, n.
    repeat rewrite <- app_assoc in H1. repeat rewrite <- app_assoc in H2.
    split; [exact Hn|]. split; [exact H1|]. split; [exact H2|].
    split; [exact Ht|]. split; [exact Hf|]. split; [reflexivity|].
    unfold kick_calls, calls_before_consent.
    repeat (rewrite slept_app || rewrite slept_cons).
    rewrite slept_laps.
    destruct p1, p2; cbn [slept fold_right seconds_of]; lia. }
  clear E. unfold StreamBot.monitor_kick_stream.
  apply post_call. intros visible Hvis. rewrite Hv in Hvis.
  injection Hvis as <-.
  apply post_call. intros new_driver Hn.
  apply post_bind.
  eapply post_weaken; [apply post_open_stream_exact|].
  intros [] h1 (p1 & H1 & ->).
  apply post_call. intros [] _.
  apply post_bind.
  eapply post_weaken; [apply post_click_accept_exact|].
  intros [] h2 (p2 & H2 & ->).
  apply post_bind.
  eapply post_weaken; [apply post_wait_answers|].
  intros [] h3 (n & -> & Ht & Hf).
  apply (post_perform w (QuitExtraDriver driver)). intros [] _.
  exists new_driver, p1, p2, n.
  rewrite <- (kick_loop_entry_calls h self driver new_driver p1 p2) in Ht, Hf.
  split; [exact Hn|]. split; [exact H1|]. split; [exact H2|].
  split; [exact Ht|]. split; [exact Hf|].
  unfold kick_calls. repeat rewrite <- app_assoc. reflexivity.
Qed.

Lemma kick_monitor_returning_run_witness :
  live_world [] (IsElementVisible 0 player_selector) = Some true
  /\ exec live_world 22 (StreamBot.monitor_kick_stream main_bot 0) [] =
       Returned tt (kick_calls main_bot 0 1 true true 2) 0
  /\ exists (new_driver : Driver) (p1 p2 : bool) (n : nat),
       live_world ([] ++ [IsElementVisible 0 player_selector])
         (GetNewDriver 0 true) = Some new_driver
       /\ live_world
            ([] ++ [IsElementVisible 0 player_selector; GetNewDriver 0 true]
               ++ calls_before_consent main_bot new_driver 5)
            (IsElementPresent new_driver accept_button) = Some p1
       /\ live_world
            ([] ++ [IsElementVisible 0 player_selector; GetNewDriver 0 true]
               ++ calls_before_consent main_bot new_driver 5
               ++ IsElementPresent new_driver accept_button
                  :: (if p1 then [UcClick new_driver accept_button 4]
                      else [])
               ++ [Sleep 0 10])
            (IsElementPresent new_driver accept_button) = Some p2
       /\ (forall k, k < n ->
             live_world
               (kick_loop_entry [] main_bot 0 new_driver p1 p2 ++ laps 0 k)
               (IsElementVisible 0 player_selector) = Some true)
       /\ live_world
            (kick_loop_entry [] main_bot 0 new_driver p1 p2 ++ laps 0 n)
            (IsElementVisible 0 player_selector) = Some false
       /\ kick_calls main_bot 0 1 true true 2
          = [] ++ kick_calls main_bot 0 new_driver p1 p2 n
       /\ slept (kick_calls main_bot 0 new_driver p1 p2 n)
          = (19 + 10 * Z.of_nat n)%Z.
Proof.
  split; [reflexivity|]. split; [reflexivity|].
  apply (kick_monitor_returning_run live_world main_bot 0 [] 22 _ 0);
    reflexivity.
Defined.

(** ** When a call raises *)

(** One routine call, in a goal about [outcomes] whose raising condition is
    [refused] at the invariant [A] kept in [H]. *)
Ltac oc_call C H :=
  match goal with
  | |- outcomes _ (ITree.bind (perform ?c) _) ?h0 _ _ _ =>
      let H' := fresh in
      pose proof (C h0 c eq_refl H) as H';
      apply outcomes_call;
        [exact H
        | intros ?; exists h0, c; split; [reflexivity | split; assumption]
        | intros ? _];
      clear H; rename H' into H
  end.

Ltac oc_last C H :=
  match goal with
  | |- outcomes _ (perform ?c) ?h0 _ _ _ =>
      let H' := fresh in
      pose proof (C h0 c eq_refl H) as H';
      apply (outcomes_perform _ c);
        [exact H
        | intros ?; exists h0, c; split; [reflexivity | split; assumption]
        | intros ? _; split; exact H']
  end.

Section RoutineOutcomes.

Variables (w : world) (A : trace -> Prop).
Hypothesis closed : closed_under routine A.

Lemma outcomes_click_accept (d : Driver) (h0 : trace) :
  A h0 ->
  outcomes w (click_accept_if_present d) h0
    (fun _ h' => A h') (refused w A) A.
Proof.
  intros H. unfold click_accept_if_present.
  pose proof (closed _ (IsElementPresent d accept_button) eq_refl H) as H1.
  apply outcomes_call;
    [exact H
    | intros Hn; exists h0, (IsElementPresent d accept_button);
      split; [reflexivity | split; assumption]
    |].
  intros [|] _; [|apply outcomes_ret; exact H1].
  oc_last closed H1.
Qed.

Lemma outcomes_handle_captcha (self : CaptchaHandler.t) (h0 : trace) :
  A h0 ->
  outcomes w (CaptchaHandler.handle_captcha self) h0
    (fun _ h' => A h') (refused w A) A.
Proof.
  intros H. unfold CaptchaHandler.handle_captcha.
  do 3 oc_call closed H. oc_last closed H.
Qed.

Lemma outcomes_open_stream (self : StreamBot.t) (d : Driver)
  (reconnect_time : Z) (h0 : trace) :
  A h0 ->
  outcomes w (StreamBot.open_stream_and_handle_popups self d reconnect_time)
    h0 (fun _ h' => A h') (refused w A) A.
Proof.
  intros H. unfold StreamBot.open_stream_and_handle_popups. cbv zeta.
  do 2 oc_call closed H.
  apply outcomes_bind.
  eapply outcomes_consequence;
    [apply outcomes_handle_captcha, H | | auto | auto].
  intros [] h1 H1. apply outcomes_click_accept, H1.
Qed.

Lemma outcomes_wait (driver : Driver) (h0 : trace) :
  A h0 ->
  outcomes w (wait_while_player_visible driver) h0
    (fun _ h' => A h') (refused w A) A.
Proof.
  intros H. unfold wait_while_player_visible.
  apply (outcomes_while w _ _ A); [|exact H].
  clear h0 H. intros h0 H.
  pose proof (closed _ (IsElementVisible driver player_selector) eq_refl H)
    as H1.
  apply (outcomes_perform _ (IsElementVisible driver player_selector));
    [exact H
    | intros Hn; exists h0, (IsElementVisible driver player_selector);
      split; [reflexivity | split; assumption]
    |].
  intros [|] _; split; try exact H1.
  oc_last closed H1.
Qed.

End RoutineOutcomes.

Lemma grown_kept (h : trace) (a : nat) (h' : trace) :
  a <= 1 -> grown h a 0 h' -> secondary_kept h h'.
Proof.
  intros Ha (evs & -> & Hs & Ht). exists evs.
  split; [reflexivity|]. split; [lia | exact Ht].
Qed.

Lemma refused_kept (w : world) (h : trace) (a : nat) (tr : trace) :
  a <= 1 -> refused w (grown h a 0) tr -> refused w (secondary_kept h) tr.
Proof.
  intros Ha (hp & c & E & Hn & G). exists hp, c.
  split; [exact E|]. split; [exact Hn | apply (grown_kept h a); assumption].
Qed.

Lemma outcomes_monitor_raise (p : platform) (w : world) (self : StreamBot.t)
  (driver : Driver) (h : trace) :
  outcomes w (monitor p self driver) h
    (fun _ _ => True) (refused w (secondary_kept h)) (fun _ => True).
Proof.
  pose proof (grown_refl h) as G.
  assert (forall a hp c, a <= 1 -> grown h a 0 hp -> w hp c = None ->
            refused w (secondary_kept h) (hp ++ [c])) as R.
  { intros a hp c Ha Gp Hn. exists hp, c.
    split; [reflexivity|]. split; [exact Hn|].
    apply (grown_kept h a); assumption. }
  destruct p; unfold monitor.
  - unfold StreamBot.monitor_kick_stream.
    apply outcomes_call; [exact I | apply (R 0); [lia | exact G] |].
    intros [|] _; [|apply outcomes_ret; exact I].
    apply (grown_step (IsElementVisible driver player_selector)) in G.
    cbn [is_spawn is_teardown Nat.b2n Nat.add] in G.
    apply outcomes_call; [exact I | apply (R 0); [lia | exact G] |].
    intros new_driver _.
    apply (grown_step (GetNewDriver driver true)) in G.
    cbn [is_spawn is_teardown Nat.b2n Nat.add] in G.
    apply outcomes_bind.
    eapply outcomes_consequence;
      [apply (outcomes_open_stream w _ (grown_closed h 1 0)
                self new_driver 5 _ G)
      | | intros tr0; apply (refused_kept w h 1 tr0); lia | auto].
    clear G. intros [] h1 G.
    apply outcomes_call; [exact I | apply (R 1); [lia | exact G] |].
    intros [] _.
    apply (grown_closed h 1 0 _ (Sleep driver 10) eq_refl) in G.
    apply outcomes_bind.
    eapply outcomes_consequence;
      [apply (outcomes_click_accept w _ (grown_closed h 1 0)
                new_driver _ G)
      | | intros tr0; apply (refused_kept w h 1 tr0); lia | auto].
    clear G. intros [] h2 G.
    apply outcomes_bind.
    eapply outcomes_consequence;
      [apply (outcomes_wait w _ (grown_closed h 1 0) driver _ G)
      | | intros tr0; apply (refused_kept w h 1 tr0); lia | auto].
    clear G. intros [] h3 G.
    apply (outcomes_perform w (QuitExtraDriver driver));
      [exact I | apply (R 1); [lia | exact G] | intros; split; exact I].
  - unfold StreamBot.monitor_twitch_stream.
    apply outcomes_bind.
    unfold StreamStatusChecker.is_twitch_online. cbv zeta.
    apply outcomes_call; [exact I | apply (R 0); [lia | exact G] |].
    intros resp _. apply outcomes_ret; [exact I|].
    match goal with
    | |- outcomes _ _ (h ++ [?c]) _ _ _ =>
        apply (grown_closed h 0 0 _ c eq_refl) in G
    end.
    destruct (str_in "isLiveBroadcast" (text resp));
      [|apply outcomes_ret; exact I].
    apply outcomes_call; [exact I | apply (R 0); [lia | exact G] |].
    intros [] _.
    match goal with
    | |- outcomes _ _ (_ ++ [?c]) _ _ _ =>
        apply (grown_closed h 0 0 _ c eq_refl) in G
    end.
    apply outcomes_bind.
    eapply outcomes_consequence;
      [apply (outcomes_click_accept w _ (grown_closed h 0 0) driver _ G)
      | | intros tr0; apply (refused_kept w h 0 tr0); lia | auto].
    clear G. intros [] h1 G.
    apply outcomes_call; [exact I | apply (R 0); [lia | exact G] |].
    intros new_driver _.
    apply (grown_step (GetNewDriver driver true)) in G.
    cbn [is_spawn is_teardown Nat.b2n Nat.add] in G.
    apply outcomes_call; [exact I | apply (R 1); [lia | exact G] |].
    intros [] _.
    match goal with
    | |- outcomes _ _ (_ ++ [?c]) _ _ _ =>
        apply (grown_closed h 1 0 _ c eq_refl) in G
    end.
    apply outcomes_call; [exact I | apply (R 1); [lia | exact G] |].
    intros [] _.
    apply (grown_closed h 1 0 _ (Sleep driver 10) eq_refl) in G.
    apply outcomes_bind.
    eapply outcomes_consequence;
      [apply (outcomes_click_accept w _ (grown_closed h 1 0)
                new_driver _ G)
      | | intros tr0; apply (refused_kept w h 1 tr0); lia | auto].
    clear G. intros [] h2 G.
    apply (outcomes_perform w (QuitExtraDriver driver));
      [exact I | apply (R 1); [lia | exact G] | intros; split; exact I].
Qed.

(** X5: when a monitor raises, the log ends with the call that raised,
    every earlier call returned, and none of those was a teardown: a
    secondary session created before the failure is left open, since
    [quit_extra_driver] is only reached when nothing before it raises. *)
Theorem monitor_failure_skips_teardown (p : platform) (w : world)
  (self : StreamBot.t) (driver : Driver) (h : trace) (fuel : nat)
  (tr : trace) :
  exec w fuel (monitor p self driver) h = Raised tr ->
  exists pre c,
    tr = h ++ pre ++ [c]
    /\ w (h ++ pre) c = None
    /\ spawned pre <= 1
    /\ torn_down pre = 0.
Proof.
  intros E.
  pose proof (outcomes_monitor_raise p w self driver h fuel) as O.
  rewrite E in O. destruct O as (hp & c & -> & Hn & pre & -> & Hs & Ht).
  exists pre, c. rewrite <- app_assoc.
  split; [reflexivity|]. split; [exact Hn|]. split; assumption.
Qed.

Lemma monitor_failure_skips_teardown_witness :
  exec failing_click_world 10 (monitor Kick main_bot 0) [] =
    Raised
      ([IsElementVisible 0 player_selector; GetNewDriver 0 true]
       ++ calls_before_consent main_bot 1 5
       ++ [IsElementPresent 1 accept_button; UcClick 1 accept_button 4])
  /\ exists pre c,
       [IsElementVisible 0 player_selector; GetNewDriver 0 true]
       ++ calls_before_consent main_bot 1 5
       ++ [IsElementPresent 1 accept_button; UcClick 1 accept_button 4]
       = [] ++ pre ++ [c]
       /\ failing_click_world ([] ++ pre) c = None
       /\ spawned pre <= 1
       /\ torn_down pre = 0.
Proof.
  split; [reflexivity|].
  apply (monitor_failure_skips_teardown Kick failing_click_world main_bot 0
           [] 10).
  reflexivity.
Defined.

(** ** Whether [run] comes to an end *)

Lemma closed_trivial : closed_under routine (fun _ : trace => True).
Proof. intros h c _ _. exact I. Qed.

Section NeverRaising.

Variable w : world.
Hypothesis total : forall h c, w h c <> None.

Lemma refused_never (A : trace -> Prop) (tr : trace) :
  refused w A tr -> False.
Proof. intros (hp & c & _ & Hn & _). exact (total hp c Hn). Qed.

(** In such a world a part that makes only routine calls never raises. *)
Lemma outcomes_open_stream_total (self : StreamBot.t) (d : Driver)
  (reconnect_time : Z) (h0 : trace) :
  outcomes w (StreamBot.open_stream_and_handle_popups self d reconnect_time)
    h0 (fun _ _ => True) (fun _ => False) (fun _ => True).
Proof.
  eapply outcomes_consequence;
    [apply (outcomes_open_stream w _ closed_trivial self d reconnect_time
              h0 I)
    | auto | apply refused_never | auto].
Qed.

Lemma outcomes_click_accept_total (d : Driver) (h0 : trace) :
  outcomes w (click_accept_if_present d) h0
    (fun _ _ => True) (fun _ => False) (fun _ => True).
Proof.
  eapply outcomes_consequence;
    [apply (outcomes_click_accept w _ closed_trivial d h0 I)
    | auto | apply refused_never | auto].
Qed.

Lemma wait_never_ends (driver : Driver) (h0 : trace) :
  (forall h, w h (IsElementVisible driver player_selector) = Some true) ->
  outcomes w (wait_while_player_visible driver) h0
    (fun _ _ => False) (fun _ => False) (fun _ => True).
Proof.
  intros Hv. unfold wait_while_player_visible.
  apply (outcomes_while w _ _ (fun _ => True)); [|exact I].
  intros h1 _.
  apply (outcomes_perform w (IsElementVisible driver player_selector));
    [exact I | apply total |].
  intros visible Hx. rewrite Hv in Hx. injection Hx as <-.
  split; [exact I|].
  apply (outcomes_perform w (Sleep driver 10));
    [exact I | apply total | intros; split; exact I].
Qed.

Lemma run_never_ends (self : StreamBot.t) (driver : Driver) (h : trace) :
  (forall h, w h (IsElementVisible driver player_selector) = Some true) ->
  outcomes w (StreamBot.run self driver) h
    (fun _ _ => False) (fun _ => False) (fun _ => True).
Proof.
  intros Hv. unfold StreamBot.run.
  apply outcomes_bind.
  eapply outcomes_consequence;
    [apply outcomes_open_stream_total | | auto | auto].
  intros [] h1 _. cbv beta.
  apply outcomes_bind. unfold StreamBot.monitor_kick_stream.
  apply outcomes_call; [exact I | apply total |].
  intros visible Hx. rewrite Hv in Hx. injection Hx as <-.
  apply outcomes_call; [exact I | apply total |].
  intros new_driver _.
  apply outcomes_bind.
  eapply outcomes_consequence;
    [apply outcomes_open_stream_total | | auto | auto].
  intros [] h2 _. cbv beta.
  apply outcomes_call; [exact I | apply total |].
  intros [] _.
  apply outcomes_bind.
  eapply outcomes_consequence;
    [apply outcomes_click_accept_total | | auto | auto].
  intros [] h3 _. cbv beta.
  apply outcomes_bind.
  eapply outcomes_consequence;
    [apply (wait_never_ends driver _ Hv) | | auto | auto].
  intros [] h4 [].
Qed.

End NeverRaising.

(** X6: in a world where no call raises and the player is reported
    visible at every check, [run] neither returns nor raises: whatever the
    fuel, it is still running (it is in the waiting loop of the player
    monitor, which has no bound on its rounds). *)
Theorem run_blocks_while_player_visible (w : world) (self : StreamBot.t)
  (driver : Driver) (h : trace) (fuel : nat) :
  (forall h' c, w h' c <> None) ->
  (forall h', w h' (IsElementVisible driver player_selector) = Some true) ->
  exists tr, exec w fuel (StreamBot.run self driver) h = OutOfFuel tr.
Proof.
  intros Ht Hv.
  pose proof (run_never_ends w Ht self driver h Hv fuel) as O.
  destruct (exec w fuel (StreamBot.run self driver) h) as [r tr s | tr | tr];
    [destruct O | destruct O | exists tr; reflexivity].
Qed.

Lemma run_blocks_while_player_visible_witness :
  (forall h' c, endless_world h' c <> None)
  /\ (forall h', endless_world h' (IsElementVisible 0 player_selector)
                 = Some true)
  /\ exists tr,
       exec endless_world 1000 (StreamBot.run main_bot 0) [] = OutOfFuel tr.
Proof.
  assert (forall h' c, endless_world h' c <> None) as Ht
    by (intros h' c; destruct c; discriminate).
  split; [exact Ht|]. split; [reflexivity|].
  apply (run_blocks_while_player_visible endless_world main_bot 0 [] 1000 Ht).
  reflexivity.
Defined.

Lemma halts_monitor_kick_absent (w : world) (self : StreamBot.t)
  (driver : Driver) (h : trace) :
  w h (IsElementVisible driver player_selector) <> Some true ->
  halts_within w (StreamBot.monitor_kick_stream self driver) h 2.
Proof.
  intros Hv. unfold StreamBot.monitor_kick_stream.
  apply halts_call. intros [|] Hx; [contradiction (Hv Hx)|].
  apply halts_ret.
Qed.

(** X7: if the player is never reported visible, [run] has returned or
    raised within 29 steps, whatever else the world answers: the waiting
    loop is the only part of [run] without a bound. *)
Theorem run_ends_when_player_absent (w : world) (self : StreamBot.t)
  (driver : Driver) (h : trace) (fuel : nat) (tr : trace) :
  (forall h', w h' (IsElementVisible driver player_selector) <> Some true) ->
  29 <= fuel ->
  exec w fuel (StreamBot.run self driver) h <> OutOfFuel tr.
Proof.
  intros Hv Hf.
  enough (halts_within w (StreamBot.run self driver) h 29) as H
    by (apply H, Hf).
  unfold StreamBot.run.
  apply (halts_bind w _ _ _ 10 19); [apply halts_open_stream|].
  intros f1 [] h1 s1 _.
  apply (halts_bind w _ _ _ 2 17);
    [apply halts_monitor_kick_absent, Hv|].
  intros f2 [] h2 s2 _.
  apply halts_call. intros [] _.
  apply (halts_bind w _ _ _ 14 2); [apply halts_monitor_twitch|].
  intros f3 [] h3 s3 _.
  apply (halts_perform w (Sleep driver 1)).
Qed.

Lemma run_ends_when_player_absent_witness :
  (forall h', quiet_world h' (IsElementVisible 0 player_selector)
              <> Some true)
  /\ 29 <= 29
  /\ exec quiet_world 29 (StreamBot.run main_bot 0) [] <> OutOfFuel [].
Proof.
  assert (forall h', quiet_world h' (IsElementVisible 0 player_selector)
                     <> Some true) as Hv.
  { intros h'. unfold quiet_world, scripted_world.
    destruct (polls h'); discriminate. }
  split; [exact Hv|]. split; [apply Nat.le_refl|].
  apply (run_ends_when_player_absent quiet_world main_bot 0 [] 29 [] Hv).
  apply Nat.le_refl.
Defined.

(** ** How the parts of [run] follow one another *)

(** X8: at every point of [run], whether it goes on to return, raise or
    keep running: either no secondary session has been created so far, or
    the opening of the primary page has returned, without creating one,
    before the rest of the calls. No secondary session is ever created
    while the primary page is still being opened. *)
Theorem run_spawns_after_opening (w : world) (self : StreamBot.t)
  (driver : Driver) (h : trace) (fuel : nat) :
  exists evs,
    trace_of (exec w fuel (StreamBot.run self driver) h) = h ++ evs
    /\ (spawned evs = 0 \/
        exists e1 rest,
          returns_at w (StreamBot.open_stream_and_handle_popups self driver 4)
            h (h ++ e1)
          /\ spawned e1 = 0
          /\ evs = e1 ++ rest).
Proof.
  unfold StreamBot.run. rewrite exec_bind.
  destruct (holds_open_stream_plain w self driver 4 h) as [Ha Hp].
  assert (forall evs, forallb (plain_on driver) evs = true ->
            spawned evs = 0) as Hs.
  { intros evs. apply (plain_on_count_zero driver is_spawn).
    intros c; destruct c; simpl; intros Hc; try reflexivity; discriminate. }
  specialize (Ha fuel).
  destruct (exec w fuel
              (StreamBot.open_stream_and_handle_popups self driver 4) h)
    as [[] h1 s1 | h1 | h1] eqn:E1; cbv beta iota.
  - destruct (Hp _ _ _ _ E1) as (e1 & -> & Hall).
    match goal with
    | |- context [exec w (S s1) ?t (h ++ e1)] =>
        destruct (exec_extends w (S s1) t (h ++ e1)) as [rest Hr]
    end.
    exists (e1 ++ rest).
    split; [etransitivity; [exact Hr | symmetry; apply app_assoc]|].
    right. exists e1, rest.
    split; [exists fuel, tt, s1; exact E1|].
    split; [apply Hs, Hall | reflexivity].
  - destruct Ha as (evs & E & Hall). exists evs.
    split; [exact E | left; apply Hs, Hall].
  - destruct Ha as (evs & E & Hall). exists evs.
    split; [exact E | left; apply Hs, Hall].
Qed.

Lemma raises_after_return {A R : Type} (w : world) (t : itree botE A)
  (k : A -> itree botE R) (h h1 tr : trace) (f1 : nat) (x : A) (s1 : nat) :
  exec w f1 t h = Returned x h1 s1 ->
  raises_at w (k x) h1 tr ->
  raises_at w (ITree.bind t k) h tr.
Proof.
  intros E1 [f2 E2]. exists (f1 + f2). rewrite exec_bind.
  pose proof (exec_more_fuel w f2 f1 t h) as M. rewrite E1 in M. rewrite M.
  pose proof (exec_more_fuel w (S s1) f2 (k x) h1) as M2.
  rewrite E2 in M2. rewrite <- M2. f_equal. lia.
Qed.

Lemma raises_at_stable {R : Type} (w : world) (t : itree botE R)
  (h tr : trace) :
  raises_at w t h tr ->
  exists fuel0, forall fuel, fuel0 <= fuel -> exec w fuel t h = Raised tr.
Proof.
  intros [f0 E]. exists f0. intros fuel Hf.
  pose proof (exec_more_fuel w (fuel - f0) f0 t h) as M.
  rewrite E in M. rewrite <- M. f_equal. lia.
Qed.

(** X9: no statement of the source catches a failure of the page request.
    When the request raises, [monitor_twitch_stream] raises having made that
    one call and no browser call; and if the opening and the player monitor
    returned and the first [sleep(1)] returned, the calls made by the body
    of the [with] block of [run] are, with any fuel from some amount on,
    exactly those up to and including that request: the body makes no call
    after it, so its final [sleep(1)] is never made. What the context
    manager does once the exception leaves the body is outside the source;
    nothing is said here about the outcome of [run()] itself. *)
Theorem probe_failure_stops_run_body (w : world) (self : StreamBot.t)
  (driver : Driver) (h h1 h2 : trace) :
  returns_at w (StreamBot.open_stream_and_handle_popups self driver 4) h h1 ->
  returns_at w (StreamBot.monitor_kick_stream self driver) h1 h2 ->
  w h2 (Sleep driver 1) = Some tt ->
  w (h2 ++ [Sleep driver 1])
    (liveness_request (username (StreamBot.streamer self))) = None ->
  (forall fuel,
     exec w (S fuel) (StreamBot.monitor_twitch_stream self driver)
       (h2 ++ [Sleep driver 1])
     = Raised (h2 ++ [Sleep driver 1;
                      liveness_request
                        (username (StreamBot.streamer self))]))
  /\ exists fuel0, forall fuel, fuel0 <= fuel ->
       trace_of (exec w fuel (StreamBot.run self driver) h)
       = h2 ++ [Sleep driver 1;
                liveness_request (username (StreamBot.streamer self))].
Proof.
  intros (f1 & [] & s1 & E1) (f2 & [] & s2 & E2) Hs Hn.
  assert (forall fuel,
            exec w (S fuel) (StreamBot.monitor_twitch_stream self driver)
              (h2 ++ [Sleep driver 1])
            = Raised (h2 ++ [Sleep driver 1;
                             liveness_request
                               (username (StreamBot.streamer self))])) as T.
  { intros fuel. unfold StreamBot.monitor_twitch_stream.
    rewrite exec_bind. unfold StreamStatusChecker.is_twitch_online.
    cbv zeta. rewrite exec_call.
    fold (liveness_request (username (StreamBot.streamer self))).
    rewrite Hn, <- app_assoc. reflexivity. }
  split; [exact T|].
  destruct (raises_at_stable w (StreamBot.run self driver) h
              (h2 ++ [Sleep driver 1;
                      liveness_request
                        (username (StreamBot.streamer self))]))
    as [fuel0 Hr].
  { unfold StreamBot.run.
    apply (raises_after_return w _ _ h h1 _ f1 tt s1 E1).
    apply (raises_after_return w _ _ h1 h2 _ f2 tt s2 E2).
    exists 2. rewrite exec_call, Hs, exec_bind, T. reflexivity. }
  exists fuel0. intros fuel Hf. rewrite (Hr fuel Hf). reflexivity.
Qed.

Lemma probe_failure_stops_run_body_witness :
  returns_at offline_world
    (StreamBot.open_stream_and_handle_popups main_bot 0 4) []
    (calls_before_consent main_bot 0 4 ++ [IsElementPresent 0 accept_button])
  /\ returns_at offline_world (StreamBot.monitor_kick_stream main_bot 0)
       (calls_before_consent main_bot 0 4
          ++ [IsElementPresent 0 accept_button])
       (calls_before_consent main_bot 0 4
          ++ [IsElementPresent 0 accept_button;
              IsElementVisible 0 player_selector])
  /\ (forall fuel,
        exec offline_world (S fuel)
          (StreamBot.monitor_twitch_stream main_bot 0)
          ((calls_before_consent main_bot 0 4
              ++ [IsElementPresent 0 accept_button;
                  IsElementVisible 0 player_selector]) ++ [Sleep 0 1])
        = Raised
            ((calls_before_consent main_bot 0 4
                ++ [IsElementPresent 0 accept_button;
                    IsElementVisible 0 player_selector])
               ++ [Sleep 0 1; liveness_request "brutalles"]))
  /\ exists fuel0, forall fuel, fuel0 <= fuel ->
       trace_of (exec offline_world fuel (StreamBot.run main_bot 0) [])
       = (calls_before_consent main_bot 0 4
            ++ [IsElementPresent 0 accept_button;
                IsElementVisible 0 player_selector])
           ++ [Sleep 0 1; liveness_request "brutalles"].
Proof.
  assert (returns_at offline_world
            (StreamBot.open_stream_and_handle_popups main_bot 0 4) []
            (calls_before_consent main_bot 0 4
               ++ [IsElementPresent 0 accept_button])) as R1
    by (exists 8, tt, 0; reflexivity).
  assert (returns_at offline_world (StreamBot.monitor_kick_stream main_bot 0)
            (calls_before_consent main_bot 0 4
               ++ [IsElementPresent 0 accept_button])
            (calls_before_consent main_bot 0 4
               ++ [IsElementPresent 0 accept_button;
                   IsElementVisible 0 player_selector])) as R2
    by (exists 2, tt, 0; reflexivity).
  split; [exact R1|]. split; [exact R2|].
  apply (probe_failure_stops_run_body offline_world main_bot 0 [] _ _ R1 R2);
    reflexivity.
Defined.

(** ** A body too short to hold the marker *)

Lemma length_append (a b : string) :
  String.length (a ++ b) = String.length a + String.length b.
Proof. induction a as [|c a IH]; simpl; [reflexivity | rewrite IH; reflexivity]. Qed.

Lemma occurs_length (needle hay : string) :
  occurs needle hay -> String.length needle <= String.length hay.
Proof.
  intros (pre & post & ->). rewrite !length_append. lia.
Qed.

(** X10: when the fetched body has fewer than 15 characters (the length of
    the marker), in particular when it is empty, [is_twitch_online] returns
    False, and [monitor_twitch_stream] returns having made no browser
    call. *)
Theorem short_body_is_offline (w : world) (h : trace) (self : StreamBot.t)
  (driver : Driver) (resp : Response) (fuel : nat) :
  w h (liveness_request (username (StreamBot.streamer self))) = Some resp ->
  String.length (text resp) < 15 ->
  exec w (S (S fuel))
    (StreamStatusChecker.is_twitch_online (username (StreamBot.streamer self)))
    h
  = Returned false
      (h ++ [liveness_request (username (StreamBot.streamer self))]) fuel
  /\ exec w (S (S fuel)) (StreamBot.monitor_twitch_stream self driver) h
     = Returned tt
         (h ++ [liveness_request (username (StreamBot.streamer self))]) fuel.
Proof.
  intros Hw Hlen.
  assert (str_in "isLiveBroadcast" (text resp) = false) as Hf.
  { destruct (str_in "isLiveBroadcast" (text resp)) eqn:Hs; [|reflexivity].
    apply str_in_spec, occurs_length in Hs. simpl in Hs. lia. }
  split.
  - rewrite exec_is_twitch_online, Hw, Hf. reflexivity.
  - unfold StreamBot.monitor_twitch_stream.
    rewrite exec_bind, exec_is_twitch_online, Hw, Hf. reflexivity.
Qed.

Lemma short_body_is_offline_witness :
  scripted_world [] false "" []
    (liveness_request (username (StreamBot.streamer main_bot)))
  = Some (mkResponse "")
  /\ String.length (text (mkResponse "")) < 15
  /\ exec (scripted_world [] false "") 2
       (StreamStatusChecker.is_twitch_online
          (username (StreamBot.streamer main_bot))) []
     = Returned false
         ([] ++ [liveness_request (username (StreamBot.streamer main_bot))]) 0
  /\ exec (scripted_world [] false "") 2
       (StreamBot.monitor_twitch_stream main_bot 0) []
     = Returned tt
         ([] ++ [liveness_request (username (StreamBot.streamer main_bot))])
         0.
Proof.
  split; [reflexivity|]. split; [simpl; lia|].
  apply (short_body_is_offline (scripted_world [] false "") [] main_bot 0
           (mkResponse "") 0); [reflexivity | simpl; lia].
Defined.
